(** * OCRmyPDF web front-end: the configuration-to-invocation pipeline

    A shallow embedding of [ocrmypdf_web.py]: the validator
    ([validate_config]), the heuristic text detector ([check_pdf_has_text]),
    the synthesis of the command line, the invocation runner
    ([process_single_file]) and the batch loop, followed by the properties
    the specification states about them.

    Python [str] values are [string]s holding their UTF-8 bytes; [bytes]
    values are lists of bytes; Python [int]s are [Z]; a [dict] is a [gmap].
    The file system, the logger, the widgets and the child process are an
    explicit state threaded through a state-and-exception monad. *)

From Stdlib Require Import ZArith QArith Ascii String.
From stdpp Require Import gmap strings list fin_maps pretty.

Local Open Scope Z_scope.

(** ** Python strings *)

Module Py.

(** ["\n"] *)
Definition nl : string := String "010"%char "".

(** [needle in hay] *)
Fixpoint str_in (needle hay : string) : bool :=
  String.prefix needle hay ||
  match hay with
  | "" => false
  | String _ rest => str_in needle rest
  end.

(** [s.endswith(suffix)] *)
Fixpoint endswith (s suffix : string) : bool :=
  String.eqb s suffix ||
  match s with
  | "" => false
  | String _ rest => endswith rest suffix
  end.

(** [sep.join(l)] *)
Fixpoint join (sep : string) (l : list string) : string :=
  match l with
  | [] => ""
  | [x] => x
  | x :: rest => x +:+ sep +:+ join sep rest
  end.

(** [bool(s)] of a [str]: non-empty. *)
Definition truthy (s : string) : bool := negb (String.eqb s "").

(** [str.lower] on the ASCII letters; the other bytes stay.  It is the
    instance of the environment's [str_lower] used to run the model on
    concrete ASCII text. *)
Definition ascii_lower_char (c : ascii) : ascii :=
  let n := Ascii.N_of_ascii c in
  if ((65 <=? n) && (n <=? 90))%N then Ascii.ascii_of_N (n + 32) else c.

Fixpoint ascii_lower (s : string) : string :=
  match s with
  | "" => ""
  | String c rest => String (ascii_lower_char c) (ascii_lower rest)
  end.

(** Result of an operation that may raise: the value, or the text of the
    exception ([str(e)]). *)
Inductive outcome (A : Type) : Type :=
| Ok (a : A)
| Raise (e : string).
Arguments Ok {A} a.
Arguments Raise {A} e.

End Py.
Export Py.

(** ** The execution environment *)

(** [bytes] *)
Abbreviation bytes := (list Byte.byte).

(** What [pikepdf] shows of one page: inspecting it raises, or it has no
    [/Contents] entry, or [str(page.get('/Contents', ''))] is the given
    text. *)
Definition Page : Type := outcome (option string).

(** What a finished child process leaves behind. *)
Record ChildExit := {
  exit_fs : gmap string bytes;
  returncode : Z;
  child_stdout : string;
  child_stderr : string;
}.

Record Env := {
  (** [os.cpu_count()] *)
  cpu_count : option Z;
  (** [str.lower] *)
  str_lower : string → string;
  (** [pikepdf.open] on a file with the given contents: the pages, or the
      exception it raises. *)
  pikepdf_open : bytes → outcome (list Page);
  (** The external program run on an argument vector and a file system. *)
  child : list string → gmap string bytes → ChildExit;
}.

(** ** Validator *)

(** [config.get(key, default)] *)
Definition config_get (config : gmap string Z) (key : string) (default : Z) : Z :=
  match config !! key with
  | Some v => v
  | None => default
  end.

Definition MSG_DPI : string := "DPI值应在72-600之间".
Definition MSG_JPEG : string := "JPEG质量应在1-100之间".

(** [str(os.cpu_count())] *)
Definition str_cpu_count (E : Env) : string :=
  match cpu_count E with
  | Some n => pretty n
  | None => "None"
  end.

Definition MSG_JOBS (E : Env) : string :=
  "线程数应在1-" +:+ str_cpu_count E +:+ "之间".

(** [n > os.cpu_count()]: comparing an [int] with [None] raises. *)
Definition gt_cpu_count (E : Env) (n : Z) : outcome bool :=
  match cpu_count E with
  | Some c => Ok (c <? n)
  | None => Raise "'>' not supported between instances of 'int' and 'NoneType'"
  end.

Definition validate_config (E : Env) (config : gmap string Z) : outcome (list string) :=
  let errors := [] in
  let errors :=
    if (config_get config "image_dpi" 300 <? 72) || (600 <? config_get config "image_dpi" 300)
    then errors ++ [MSG_DPI] else errors in
  match (if config_get config "jobs" 1 <? 1 then Ok true
         else gt_cpu_count E (config_get config "jobs" 1)) with
  | Raise e => Raise e
  | Ok bad_jobs =>
      let errors := if bad_jobs then errors ++ [MSG_JOBS E] else errors in
      let errors :=
        if (config_get config "jpeg_quality" 75 <? 1) || (100 <? config_get config "jpeg_quality" 75)
        then errors ++ [MSG_JPEG] else errors in
      Ok errors
  end.

(** ** Option model and argument synthesis *)

(** The [mode], [output_type] and [optimize] select boxes offer fixed
    options. *)
Inductive Mode := ModeNormal | ModeSkipText | ModeForceOcr | ModeRedoOcr.

Definition mode_str (m : Mode) : string :=
  match m with
  | ModeNormal => "normal"
  | ModeSkipText => "skip-text"
  | ModeForceOcr => "force-ocr"
  | ModeRedoOcr => "redo-ocr"
  end.

Inductive OutputType := Pdfa | Pdf | Pdfa1 | Pdfa2 | Pdfa3.

Definition output_type_str (t : OutputType) : string :=
  match t with
  | Pdfa => "pdfa"
  | Pdf => "pdf"
  | Pdfa1 => "pdfa-1"
  | Pdfa2 => "pdfa-2"
  | Pdfa3 => "pdfa-3"
  end.

Inductive Optimize := O0 | O1 | O2 | O3.

Definition optimize_str (o : Optimize) : string :=
  match o with
  | O0 => "0"
  | O1 => "1"
  | O2 => "2"
  | O3 => "3"
  end.

(** The widget values read when the button is clicked. *)
Record Options := {
  mode : Mode;
  language : string;
  pages : string;
  image_dpi : Z;
  rotate_pages : bool;
  deskew : bool;
  clean : bool;
  clean_final : bool;
  output_type : OutputType;
  optimize : Optimize;
  jpeg_quality : Z;
  png_quality : Z;
  title : string;
  author : string;
  subject : string;
  keywords : string;
  jobs : Z;
}.

(** An uploaded file: its name and [getvalue()]. *)
Record UploadedFile := {
  name : string;
  getvalue : bytes;
}.

(** [name.lower().endswith(".pdf")] *)
Definition is_pdf_name (E : Env) (n : string) : bool :=
  endswith (str_lower E n) ".pdf".

(** The list [args] is built in place: [args.append(x)],
    [args.extend(l)], and [if cond: ...] around them. *)
Definition append (x : string) (args : list string) : list string := args ++ [x].

Definition extend (l : list string) (args : list string) : list string := args ++ l.

Definition py_if (cond : bool) (body : list string → list string) (args : list string)
  : list string :=
  if cond then body args else args.

(** The construction of [args] in the button handler; [uploaded_file] is
    the file the script bound to that name. *)
Definition synthesize (E : Env) (uploaded_file : UploadedFile) (o : Options) : list string :=
  let args := ["ocrmypdf"] in
  let args := py_if (negb (String.eqb (mode_str (mode o)) "normal"))
                (append ("--" +:+ mode_str (mode o))) args in
  let args := py_if (truthy (language o)) (extend ["-l"; language o]) args in
  let args := py_if (truthy (pages o)) (extend ["--pages"; pages o]) args in
  let args := py_if (negb (is_pdf_name E (name uploaded_file)) && negb (image_dpi o =? 0))
                (extend ["--image-dpi"; pretty (image_dpi o)]) args in
  let args := py_if (rotate_pages o) (append "--rotate-pages") args in
  let args := py_if (deskew o) (append "--deskew") args in
  let args := py_if (clean o) (append "--clean") args in
  let args := py_if (clean_final o) (append "--clean-final") args in
  let args := py_if (truthy (output_type_str (output_type o)))
                (extend ["--output-type"; output_type_str (output_type o)]) args in
  let args := py_if (negb (String.eqb (optimize_str (optimize o)) "0"))
                (fun args =>
                   let args := extend ["--optimize"; optimize_str (optimize o)] args in
                   let args := extend ["--jpeg-quality"; pretty (jpeg_quality o)] args in
                   let args := extend ["--png-quality"; pretty (png_quality o)] args in
                   args) args in
  let args := py_if (truthy (title o)) (extend ["--title"; title o]) args in
  let args := py_if (truthy (author o)) (extend ["--author"; author o]) args in
  let args := py_if (truthy (subject o)) (extend ["--subject"; subject o]) args in
  let args := py_if (truthy (keywords o)) (extend ["--keywords"; keywords o]) args in
  let args := py_if (1 <? jobs o) (extend ["--jobs"; pretty (jobs o)]) args in
  args.

(** The values the user types or selects as text, which the synthesis
    forwards verbatim. *)
Definition free_text_values (o : Options) : list string :=
  [language o; pages o; title o; author o; subject o; keywords o].

(** ** State, exceptions and the primitive operations *)

Inductive LogLevel := INFO | WARNING | ERROR.

(** A Python number handed to [st.progress]: an [int], or the [float]
    quotient of two [int]s, kept as the exact rational. *)
Inductive PyNum :=
| PyInt (z : Z)
| PyFloat (q : Q).

Inductive Widget :=
| OverallProgress | OverallStatus | FileProgress | FileStatus
| ProgressBar | StatusText.

Inductive UiEvent :=
| NewProgress (w : Widget) (v : PyNum)
| NewEmpty (w : Widget)
| SetText (w : Widget) (s : string)
| SetProgress (w : Widget) (v : PyNum)
| StError (s : string).

(** One completed run of the child process: its argument vector and what
    it left. *)
Record ChildRun := {
  run_argv : list string;
  run_exit : ChildExit;
}.

Record State := {
  (** the file system: path to contents *)
  fs : gmap string bytes;
  (** the random names [tempfile] will try, in order *)
  tmp_names : list string;
  (** for each coming file or process operation, the exception the
      operating system makes it raise, if any *)
  faults : list (option string);
  (** what [logger] has written *)
  logs : list (LogLevel * string);
  (** what the widgets were told *)
  ui : list UiEvent;
  (** history: the temporary files created so far *)
  created : list string;
  (** history: the child processes that ran *)
  children : list ChildRun;
  (** the locals [input_file] and [output_file] of the running
      [process_single_file], once bound *)
  local_input_file : option string;
  local_output_file : option string;
}.

Definition set_fs (f : gmap string bytes → gmap string bytes) (s : State) : State :=
  {| fs := f (fs s); tmp_names := tmp_names s; faults := faults s; logs := logs s;
     ui := ui s; created := created s; children := children s;
     local_input_file := local_input_file s; local_output_file := local_output_file s |}.

Definition set_tmp_names (l : list string) (s : State) : State :=
  {| fs := fs s; tmp_names := l; faults := faults s; logs := logs s;
     ui := ui s; created := created s; children := children s;
     local_input_file := local_input_file s; local_output_file := local_output_file s |}.

Definition set_faults (l : list (option string)) (s : State) : State :=
  {| fs := fs s; tmp_names := tmp_names s; faults := l; logs := logs s;
     ui := ui s; created := created s; children := children s;
     local_input_file := local_input_file s; local_output_file := local_output_file s |}.

Definition add_log (e : LogLevel * string) (s : State) : State :=
  {| fs := fs s; tmp_names := tmp_names s; faults := faults s; logs := logs s ++ [e];
     ui := ui s; created := created s; children := children s;
     local_input_file := local_input_file s; local_output_file := local_output_file s |}.

Definition add_ui (l : list UiEvent) (s : State) : State :=
  {| fs := fs s; tmp_names := tmp_names s; faults := faults s; logs := logs s;
     ui := ui s ++ l; created := created s; children := children s;
     local_input_file := local_input_file s; local_output_file := local_output_file s |}.

Definition add_created (p : string) (s : State) : State :=
  {| fs := fs s; tmp_names := tmp_names s; faults := faults s; logs := logs s;
     ui := ui s; created := created s ++ [p]; children := children s;
     local_input_file := local_input_file s; local_output_file := local_output_file s |}.

Definition add_child (c : ChildRun) (s : State) : State :=
  {| fs := fs s; tmp_names := tmp_names s; faults := faults s; logs := logs s;
     ui := ui s; created := created s; children := children s ++ [c];
     local_input_file := local_input_file s; local_output_file := local_output_file s |}.

Definition set_locals (i o : option string) (s : State) : State :=
  {| fs := fs s; tmp_names := tmp_names s; faults := faults s; logs := logs s;
     ui := ui s; created := created s; children := children s;
     local_input_file := i; local_output_file := o |}.

(** Computations that read and change the state and return or raise. *)
Definition M (A : Type) : Type := State → outcome A * State.

Definition ret {A} (a : A) : M A := fun s => (Ok a, s).

Definition raise {A} (e : string) : M A := fun s => (Raise e, s).

Definition bind {A B} (m : M A) (k : A → M B) : M B :=
  fun s =>
    match m s with
    | (Ok a, s1) => k a s1
    | (Raise e, s1) => (Raise e, s1)
    end.

(** [try: m  except Exception as e: h e] *)
Definition try_except {A} (m : M A) (h : string → M A) : M A :=
  fun s =>
    match m s with
    | (Ok a, s1) => (Ok a, s1)
    | (Raise e, s1) => h e s1
    end.

(** [try: m  finally: f]: [f] runs on every exit of [m]; an exception of
    [f] replaces the result. *)
Definition try_finally {A} (m : M A) (f : M unit) : M A :=
  fun s =>
    match m s with
    | (r, s1) =>
        match f s1 with
        | (Ok _, s2) => (r, s2)
        | (Raise e, s2) => (Raise e, s2)
        end
    end.

Definition modify (f : State → State) : M unit := fun s => (Ok (), f s).

Declare Scope py_scope.
Delimit Scope py_scope with py.
Notation "'let*' x ':=' m 'in' k" := (bind m (fun x => k))
  (at level 10, x pattern, m at level 100, k at level 200) : py_scope.
Notation "m ';;' k" := (bind m (fun _ => k))
  (at level 100, k at level 200, right associativity) : py_scope.
Local Open Scope py_scope.

(** The operating system's decision for the next operation. *)
Definition os_call : M unit :=
  fun s =>
    match faults s with
    | [] => (Ok (), s)
    | None :: rest => (Ok (), set_faults rest s)
    | Some e :: rest => (Raise e, set_faults rest s)
    end.

Definition logger_info (msg : string) : M unit := modify (add_log (INFO, msg)).
Definition logger_warning (msg : string) : M unit := modify (add_log (WARNING, msg)).
Definition logger_error (msg : string) : M unit := modify (add_log (ERROR, msg)).
(** [logger.exception] logs at level ERROR. *)
Definition logger_exception (msg : string) : M unit := modify (add_log (ERROR, msg)).

Definition st (l : list UiEvent) : M unit := modify (add_ui l).

(** [tempfile]'s search for an unused name: the first candidate whose path
    does not exist, with the candidates left. *)
Fixpoint mkstemp_inner (files : gmap string bytes) (candidates : list string) (suffix : string)
  : option (string * list string) :=
  match candidates with
  | [] => None
  | c :: rest =>
      let p := "/tmp/tmp" +:+ c +:+ suffix in
      match files !! p with
      | Some _ => mkstemp_inner files rest suffix
      | None => Some (p, rest)
      end
  end.

(** [tempfile.NamedTemporaryFile(delete=False, suffix=suffix)]: creates an
    empty file under a name that did not exist and returns the name. *)
Definition NamedTemporaryFile (suffix : string) : M string :=
  os_call ;;
  fun s =>
    match mkstemp_inner (fs s) (tmp_names s) suffix with
    | None => (Raise "No usable temporary file name found", set_tmp_names [] s)
    | Some (p, rest) =>
        (Ok p, add_created p (set_fs (insert p []) (set_tmp_names rest s)))
    end.

(** [f.write(data); f.flush()] on the open file of that name. *)
Definition write_flush (p : string) (data : bytes) : M unit :=
  os_call ;; modify (set_fs (insert p data)).

(** [Path(p).exists()] *)
Definition path_exists (p : string) : M bool :=
  fun s => (Ok (bool_decide (is_Some (fs s !! p))), s).

(** [Path(p).stat().st_size] *)
Definition stat_st_size (p : string) : M Z :=
  fun s =>
    match fs s !! p with
    | Some d => (Ok (Z.of_nat (length d)), s)
    | None => (Raise ("[Errno 2] No such file or directory: '" +:+ p +:+ "'"), s)
    end.

(** [open(p, "rb").read()] *)
Definition read_file (p : string) : M bytes :=
  os_call ;;
  fun s =>
    match fs s !! p with
    | Some d => (Ok d, s)
    | None => (Raise ("[Errno 2] No such file or directory: '" +:+ p +:+ "'"), s)
    end.

(** [os.unlink(p)] *)
Definition os_unlink (p : string) : M unit :=
  os_call ;;
  fun s =>
    match fs s !! p with
    | Some _ => (Ok (), set_fs (delete p) s)
    | None => (Raise ("[Errno 2] No such file or directory: '" +:+ p +:+ "'"), s)
    end.

(** [subprocess.Popen(argv, ...)]: the handle is the argument vector. *)
Definition Popen (argv : list string) : M (list string) :=
  os_call ;; ret argv.

(** [process.communicate()] and then [process.returncode]: the child runs
    to its end on the file system and leaves its exit code and output. *)
Definition communicate (E : Env) (process : list string) : M ChildExit :=
  fun s =>
    let x := child E process (fs s) in
    (Ok x, add_child {| run_argv := process; run_exit := x |} (set_fs (fun _ => exit_fs x) s)).

(** [with pikepdf.open(p) as pdf]: the pages of the file at [p]. *)
Definition pikepdf_open_path (E : Env) (p : string) : M (list Page) :=
  fun s =>
    match fs s !! p with
    | Some d =>
        match pikepdf_open E d with
        | Ok pdf => (Ok pdf, s)
        | Raise e => (Raise e, s)
        end
    | None => (Raise ("[Errno 2] No such file or directory: '" +:+ p +:+ "'"), s)
    end.

(** ** Heuristic text detector *)

(** The loop over [pdf.pages[:3]]: [true] is the [return True] inside it;
    a page whose inspection raises is skipped ([continue]). *)
Fixpoint scan_pages (pdf_pages : list Page) : bool :=
  match pdf_pages with
  | [] => false
  | page :: rest =>
      match page with
      | Ok (Some contents) =>
          if str_in "Tj" contents || str_in "TJ" contents || str_in "Td" contents
          then true
          else scan_pages rest
      | Ok None => scan_pages rest
      | Raise _ => scan_pages rest
      end
  end.

Definition check_pdf_has_text (E : Env) (file_data : bytes) : M bool :=
  try_except
    (let* tmp_file := NamedTemporaryFile ".pdf" in
     write_flush tmp_file file_data ;;
     let* pdf := pikepdf_open_path E tmp_file in
     if scan_pages (take 3 pdf) then ret true
     else
       os_unlink tmp_file ;;
       ret false)
    (fun e =>
       logger_warning ("检测PDF文本时出错: " +:+ e) ;;
       ret false).

(** ** Invocation runner *)

(** [(output_data, error_msg)] *)
Definition Result : Type := option bytes * option string.

(** A progress callback only drives widgets. *)
Definition Callback : Type := option (string → Z → list UiEvent).

Definition call (progress_callback : Callback) (status : string) (progress : Z) : M unit :=
  match progress_callback with
  | Some f => st (f status progress)
  | None => ret ()
  end.

Definition HINT_HAS_TEXT : string :=
  nl +:+ nl +:+ "💡 解决方案：" +:+ nl +:+
  "• 该PDF已包含文本层" +:+ nl +:+
  "• 请选择'强制OCR（覆盖已有文本）'模式重新处理" +:+ nl +:+
  "• 或选择'跳过文本页面'模式跳过已有文本的页面".

Definition HINT_NO_TESSERACT : string :=
  nl +:+ nl +:+ "💡 解决方案：" +:+ nl +:+
  "• Tesseract OCR引擎未安装或未找到" +:+ nl +:+
  "• 请确保已正确安装Tesseract OCR".

Definition HINT_NO_LANGUAGE : string :=
  nl +:+ nl +:+ "💡 解决方案：" +:+ nl +:+
  "• 所选语言包未安装" +:+ nl +:+
  "• 请安装相应的Tesseract语言包".

Definition MSG_NO_OUTPUT : string := "未生成输出文件".

(** The first value of [error_msg] in the branch of a non-zero exit. *)
Definition ocr_failed_msg (rc : Z) (stderr : string) : string :=
  "OCR处理失败 (退出码: " +:+ pretty rc +:+ ")" +:+ nl +:+ stderr.

(** The [if]/[elif] chain that appends the advice matching [stderr] to
    [error_msg]. *)
Definition add_hint (E : Env) (stderr error_msg : string) : string :=
  if str_in "PriorOcrFoundError" stderr || str_in "page already has text" stderr
  then error_msg +:+ HINT_HAS_TEXT
  else if str_in "TesseractNotFoundError" stderr
  then error_msg +:+ HINT_NO_TESSERACT
  else if str_in "language" (str_lower E stderr) && str_in "not found" (str_lower E stderr)
  then error_msg +:+ HINT_NO_LANGUAGE
  else error_msg.

(** The body of the [try] statement. *)
Definition process_try (E : Env) (file : UploadedFile) (args : list string)
    (progress_callback : Callback) : M Result :=
  let* input_file := NamedTemporaryFile ("_" +:+ name file) in
  modify (set_locals (Some input_file) None) ;;
  write_flush input_file (getvalue file) ;;
  let* output_file := NamedTemporaryFile "_ocr.pdf" in
  modify (set_locals (Some input_file) (Some output_file)) ;;
  let file_args := args ++ [input_file; output_file] in
  call progress_callback "🔄 正在启动OCR处理..." 10 ;;
  logger_info ("开始处理文件: " +:+ name file) ;;
  logger_info ("执行命令: " +:+ join " " file_args) ;;
  let* process := Popen file_args in
  call progress_callback "🔄 OCR处理中，请稍候..." 50 ;;
  let* exit := communicate E process in
  let stderr := child_stderr exit in
  if returncode exit =? 0 then
    call progress_callback "✅ OCR处理完成！" 90 ;;
    let* produced :=
      (let* e := path_exists output_file in
       if e then (let* size := stat_st_size output_file in ret (0 <? size))
       else ret false) in
    if produced then
      let* output_data := read_file output_file in
      logger_info ("文件处理成功: " +:+ name file) ;;
      ret (Some output_data, None)
    else
      let error_msg := MSG_NO_OUTPUT in
      logger_error ("处理失败: " +:+ error_msg) ;;
      ret (None, Some error_msg)
  else
    let error_msg := ocr_failed_msg (returncode exit) stderr in
    logger_error ("处理失败: " +:+ error_msg) ;;
    let error_msg := add_hint E stderr error_msg in
    ret (None, Some error_msg).

Definition MSG_EXCEPTION (e : string) : string := "处理过程中发生错误: " +:+ e.

(** The [except Exception as e] clause. *)
Definition process_except (e : string) : M Result :=
  let error_msg := MSG_EXCEPTION e in
  logger_exception ("处理异常: " +:+ error_msg) ;;
  ret (None, Some error_msg).

Definition MSG_CLEANUP_FAILED (e : string) : string := "清理临时文件失败: " +:+ e.

(** The [finally] clause. *)
Definition process_finally : M unit :=
  try_except
    (let* input_file := (fun s => (Ok (local_input_file s), s)) in
     match input_file with
     | Some p => os_unlink p
     | None => ret ()
     end ;;
     let* output_file := (fun s => (Ok (local_output_file s), s)) in
     match output_file with
     | Some p =>
         let* e := path_exists p in
         if e then os_unlink p else ret ()
     | None => ret ()
     end)
    (fun e => logger_warning (MSG_CLEANUP_FAILED e)).

Definition process_single_file (E : Env) (file : UploadedFile) (args : list string)
    (progress_callback : Callback) : M Result :=
  modify (set_locals None None) ;;
  try_finally
    (try_except (process_try E file args progress_callback) process_except)
    process_finally.

(** ** Button handler and batch loop *)

(** [bool(output_data)]: neither [None] nor empty. *)
Definition bytes_truthy (output_data : option bytes) : bool :=
  match output_data with
  | Some (_ :: _) => true
  | _ => false
  end.

(** [f"{error}"] *)
Definition str_of_error (error : option string) : string :=
  match error with
  | Some s => s
  | None => "None"
  end.

(** The closure [progress_callback] of the batch loop. *)
Definition batch_progress_callback (status : string) (progress : Z) : list UiEvent :=
  [SetText FileStatus status; SetProgress FileProgress (PyInt progress)].

(** The closure [progress_callback] of the single-file branch. *)
Definition single_progress_callback (status : string) (progress : Z) : list UiEvent :=
  [SetText StatusText status; SetProgress ProgressBar (PyInt progress)].

(** [(i + 1) / len(uploaded_files)] *)
Definition overall_fraction (i total : nat) : Q :=
  (inject_Z (Z.of_nat (i + 1)) / inject_Z (Z.of_nat total))%Q.

Definition Successes : Type := list (UploadedFile * bytes).
Definition Failures : Type := list (string * option string).

(** The loop body up to the call of [process_single_file]. *)
Definition batch_call (E : Env) (total : nat) (args : list string) (i : nat)
    (file : UploadedFile) : M Result :=
  st [SetText OverallStatus
        ("正在处理第 " +:+ pretty (i + 1)%nat +:+ "/" +:+ pretty total +:+ " 个文件: " +:+ name file)] ;;
  st [NewProgress FileProgress (PyInt 0); NewEmpty FileStatus] ;;
  process_single_file E file args (Some batch_progress_callback).

(** The [if output_data: ... else: ...] of the loop body. *)
Definition batch_record (file : UploadedFile) (r : Result)
    (results : Successes) (errors : Failures) : M (Successes * Failures) :=
  let '(output_data, error) := r in
  if bytes_truthy output_data then
    st [SetText FileStatus ("✅ " +:+ name file +:+ " 处理完成");
        SetProgress FileProgress (PyInt 100)] ;;
    ret (results ++ [(file, default [] output_data)], errors)
  else
    st [SetText FileStatus ("❌ " +:+ name file +:+ " 处理失败");
        StError ("处理 " +:+ name file +:+ " 时出错: " +:+ str_of_error error)] ;;
    ret (results, errors ++ [(name file, error)]).

(** One iteration of the loop. *)
Definition batch_iteration (E : Env) (total : nat) (args : list string) (i : nat)
    (file : UploadedFile) (results : Successes) (errors : Failures)
  : M (Successes * Failures) :=
  let* r := batch_call E total args i file in
  let* acc := batch_record file r results errors in
  st [SetProgress OverallProgress (PyFloat (overall_fraction i total))] ;;
  ret acc.

(** The [for i, file in enumerate(uploaded_files)] loop, from index [i] on
    the files left; [total] is [len(uploaded_files)]. *)
Fixpoint batch_loop (E : Env) (total : nat) (args : list string) (i : nat)
    (files : list UploadedFile) (results : Successes) (errors : Failures)
  : M (Successes * Failures) :=
  match files with
  | [] => ret (results, errors)
  | file :: rest =>
      let* acc := batch_iteration E total args i file results errors in
      batch_loop E total args (S i) rest (fst acc) (snd acc)
  end.

(** The batch branch up to the final tally (the widgets drawn after it only
    read [results] and [errors]). *)
Definition run_batch (E : Env) (uploaded_files : list UploadedFile) (args : list string)
  : M (Successes * Failures) :=
  st [NewProgress OverallProgress (PyInt 0); NewEmpty OverallStatus] ;;
  let* r := batch_loop E (length uploaded_files) args 0 uploaded_files [] [] in
  st [SetText OverallStatus
        ("✅ 批量处理完成！成功: " +:+ pretty (length (fst r)) +:+ "个，失败: "
           +:+ pretty (length (snd r)) +:+ "个")] ;;
  ret r.

(** The single-file branch up to the outcome. *)
Definition run_single (E : Env) (uploaded_file : UploadedFile) (args : list string) : M Result :=
  st [NewProgress ProgressBar (PyInt 0); NewEmpty StatusText] ;;
  let* r := process_single_file E uploaded_file args (Some single_progress_callback) in
  (if bytes_truthy (fst r) then st [SetProgress ProgressBar (PyInt 100)]
   else st [StError ("❌ 处理失败: " +:+ str_of_error (snd r))]) ;;
  ret r.

(** [current_config] *)
Definition current_config (o : Options) : gmap string Z :=
  <["image_dpi" := image_dpi o]>
    (<["jobs" := jobs o]>
       (<["jpeg_quality" := jpeg_quality o]>
          (<["png_quality" := png_quality o]> ∅))).

Inductive Clicked :=
| Stopped
| BatchDone (results : Successes) (errors : Failures)
| SingleDone (r : Result).

(** One run of the script with the button clicked.  The configuration is
    validated and its errors are shown first; without a file there is no
    button; with configuration errors the script stops before drawing it.
    In batch mode [uploaded_file] is [uploaded_files[0]], otherwise
    [uploaded_files] is [[uploaded_file]]. *)
Definition on_click (E : Env) (batch_mode : bool) (uploaded_files : list UploadedFile)
    (o : Options) : M Clicked :=
  match validate_config E (current_config o) with
  | Raise e => raise e
  | Ok config_errors =>
      (match config_errors with
       | [] => ret ()
       | _ => st (StError "⚠️ 配置错误:" :: map (fun error => StError ("• " +:+ error)) config_errors)
       end) ;;
      match uploaded_files with
      | [] => ret Stopped
      | uploaded_file :: _ =>
          match config_errors with
          | _ :: _ => st [StError "❌ 请先修复配置错误"] ;; ret Stopped
          | [] =>
              let args := synthesize E uploaded_file o in
              if batch_mode && bool_decide (1 < length uploaded_files)%nat then
                let* r := run_batch E uploaded_files args in
                ret (BatchDone (fst r) (snd r))
              else
                let* r := run_single E uploaded_file args in
                ret (SingleDone r)
          end
      end
  end.

(** ** Vocabulary of the statements *)

(** [when b x]: what an [if b: args.extend(x)] adds to [args]. *)
Definition when {A} (b : bool) (x : list A) : list A := if b then x else [].

(** The three flags of the optimisation rule. *)
Definition OPTIMIZE_FLAGS : list string := ["--optimize"; "--jpeg-quality"; "--png-quality"].

(** [sub] occurs in [l] as a block of consecutive elements. *)
Definition has_block (sub l : list string) : Prop := ∃ pre post, l = pre ++ sub ++ post.

(** Two configurations that agree on every key but [key]. *)
Definition differ_only_in (key : string) (c1 c2 : gmap string Z) : Prop :=
  ∀ k, k ≠ key → c1 !! k = c2 !! k.

(** What [process_single_file] returned for each file of the batch loop, in
    order (the loop itself only keeps the two lists built from them). *)
Fixpoint batch_outcomes (E : Env) (total : nat) (args : list string) (i : nat)
    (files : list UploadedFile) (s : State) : list (outcome Result) :=
  match files with
  | [] => []
  | file :: rest =>
      fst (batch_call E total args i file s) ::
      batch_outcomes E total args (S i) rest
        (snd (batch_iteration E total args i file [] [] s))
  end.

(** The values given to the overall progress bar, in order. *)
Fixpoint overall_progress_values (events : list UiEvent) : list PyNum :=
  match events with
  | [] => []
  | SetProgress OverallProgress v :: rest => v :: overall_progress_values rest
  | _ :: rest => overall_progress_values rest
  end.

(** The locals of [process_single_file] that are bound. *)
Definition bound_files (s : State) : list string :=
  option_list (local_input_file s) ++ option_list (local_output_file s).

(** A page in which the detector sees a text operator. *)
Definition page_shows_text (page : Page) : Prop :=
  ∃ contents, page = Ok (Some contents) ∧
    (str_in "Tj" contents = true ∨ str_in "TJ" contents = true ∨ str_in "Td" contents = true).

(** One of the first three pages shows a text operator. *)
Definition text_in_first_pages (pdf : list Page) : Prop :=
  ∃ (i : nat) page, (i < 3)%nat ∧ pdf !! i = Some page ∧ page_shows_text page.

(** The first two steps of the detector: the temporary copy of the
    upload. *)
Definition stage_copy (file_data : bytes) : M string :=
  let* tmp_file := NamedTemporaryFile ".pdf" in
  write_flush tmp_file file_data ;;
  ret tmp_file.

(** The reading of the specification's test property for a missing
    engine: any run whose child exits non-zero with
    [TesseractNotFoundError] in its standard error gets the advice for a
    missing engine, whatever else the standard error contains. *)
Definition engine_not_found_whatever_else : Prop :=
  ∀ (E : Env) (file : UploadedFile) (args : list string) (progress_callback : Callback)
    (s s' : State) (r : outcome Result) (run : ChildRun),
    process_single_file E file args progress_callback s = (r, s') →
    children s' = children s ++ [run] →
    returncode (run_exit run) ≠ 0 →
    str_in "TesseractNotFoundError" (child_stderr (run_exit run)) = true →
    r = Ok (None, Some (ocr_failed_msg (returncode (run_exit run)) (child_stderr (run_exit run))
                          +:+ HINT_NO_TESSERACT)).

(** The calls [process_single_file] makes to its progress callback on a
    run that reaches the end of the child with exit code 0. *)
Definition PROGRESS_CALLS : list (string * Z) :=
  [("🔄 正在启动OCR处理...", 10); ("🔄 OCR处理中，请稍候...", 50); ("✅ OCR处理完成！", 90)].

(** What a sequence of calls of the callback tells the widgets. *)
Definition callback_events (progress_callback : Callback) (calls : list (string * Z))
  : list UiEvent :=
  match progress_callback with
  | Some f => concat (map (fun c => f (fst c) (snd c)) calls)
  | None => []
  end.

(** The pair of lists after one file, from the result of its run. *)
Definition recorded (file : UploadedFile) (res : Result)
    (results : Successes) (errors : Failures) : Successes * Failures :=
  if bytes_truthy (fst res)
  then (results ++ [(file, default [] (fst res))], errors)
  else (results, errors ++ [(name file, snd res)]).

(** What one file's outcome tells the widgets of that file. *)
Definition record_events (file : UploadedFile) (res : Result) : list UiEvent :=
  if bytes_truthy (fst res)
  then [SetText FileStatus ("✅ " +:+ name file +:+ " 处理完成");
        SetProgress FileProgress (PyInt 100)]
  else [SetText FileStatus ("❌ " +:+ name file +:+ " 处理失败");
        StError ("处理 " +:+ name file +:+ " 时出错: " +:+ str_of_error (snd res))].

(** The files whose run gave output, with the output, and the names of the
    others, with the message, both in the order of the files. *)
Fixpoint successes (files : list UploadedFile) (rs : list Result) : Successes :=
  match files, rs with
  | file :: files', res :: rs' =>
      (if bytes_truthy (fst res) then [(file, default [] (fst res))] else [])
        ++ successes files' rs'
  | _, _ => []
  end.

Fixpoint failures (files : list UploadedFile) (rs : list Result) : Failures :=
  match files, rs with
  | file :: files', res :: rs' =>
      (if bytes_truthy (fst res) then [] else [(name file, snd res)])
        ++ failures files' rs'
  | _, _ => []
  end.

(** A result of the runner: non-empty output and no message, or no output
    and a message. *)
Definition well_formed_result (res : Result) : Prop :=
  (∃ d, res = (Some d, None) ∧ d ≠ []) ∨ (∃ msg, res = (None, Some msg)).

(** The outcomes of the files in the batch branch. *)
Definition run_batch_outcomes (E : Env) (uploaded_files : list UploadedFile)
    (args : list string) (s : State) : list (outcome Result) :=
  batch_outcomes E (length uploaded_files) args 0 uploaded_files
    (add_ui [NewProgress OverallProgress (PyInt 0); NewEmpty OverallStatus] s).

(** The child was run on [args] followed by two paths. *)
Definition run_on (args : list string) (run : ChildRun) : Prop :=
  ∃ inp outp, run_argv run = args ++ [inp; outp].

(** ** A concrete environment, to run the model *)

(** A stand-in for the external program.  It reads its input file: input
    starting with [!] makes it fail with exit code 1, the rest of the
    input as its standard error, and no output file; an empty input makes
    it exit with 0 without writing; any other input is copied to the
    output file. *)
Definition demo_child (argv : list string) (files : gmap string bytes) : ChildExit :=
  let inp := default "" (argv !! (length argv - 2)%nat) in
  let outp := default "" (last argv) in
  match files !! inp with
  | Some (b :: rest) =>
      if Byte.eqb b Byte.x21
      then {| exit_fs := delete outp files; returncode := 1;
              child_stdout := ""; child_stderr := string_of_list_byte rest |}
      else {| exit_fs := <[outp := b :: rest]> files; returncode := 0;
              child_stdout := ""; child_stderr := "" |}
  | Some [] =>
      {| exit_fs := files; returncode := 0; child_stdout := ""; child_stderr := "" |}
  | None =>
      {| exit_fs := files; returncode := 2; child_stdout := "";
         child_stderr := "InputFileError: no input" |}
  end.

(** A stand-in for [pikepdf]: no bytes cannot be opened; otherwise the
    document has one page whose content is the bytes. *)
Definition demo_pikepdf (data : bytes) : outcome (list Page) :=
  match data with
  | [] => Raise "PdfError: unable to find trailer dictionary"
  | _ => Ok [Ok (Some (string_of_list_byte data))]
  end.

Definition demo_env : Env :=
  {| cpu_count := Some 4;
     str_lower := ascii_lower;
     pikepdf_open := demo_pikepdf;
     child := demo_child |}.

(** An empty file system, no failing operation, six names for
    temporary files. *)
Definition demo_state : State :=
  {| fs := ∅;
     tmp_names := ["a1b2c3d4"; "e5f6g7h8"; "i9j0k1l2"; "m3n4o5p6"; "q7r8s9t0"; "u1v2w3x4"];
     faults := [];
     logs := [];
     ui := [];
     created := [];
     children := [];
     local_input_file := None;
     local_output_file := None |}.

Definition demo_file (n contents : string) : UploadedFile :=
  {| name := n; getvalue := list_byte_of_string contents |}.

Definition demo_options : Options :=
  {| mode := ModeNormal; language := "chi_sim"; pages := ""; image_dpi := 300;
     rotate_pages := false; deskew := true; clean := false; clean_final := false;
     output_type := Pdfa; optimize := O2; jpeg_quality := 75; png_quality := 75;
     title := ""; author := ""; subject := ""; keywords := ""; jobs := 4 |}.

Definition demo_options_level0 : Options :=
  {| mode := ModeForceOcr; language := "eng"; pages := "1,3,5-10"; image_dpi := 300;
     rotate_pages := true; deskew := false; clean := false; clean_final := false;
     output_type := Pdf; optimize := O0; jpeg_quality := 50; png_quality := 50;
     title := "Report"; author := ""; subject := ""; keywords := ""; jobs := 1 |}.

(** The results inside a list of outcomes that all returned. *)
Definition returned (l : list (outcome Result)) : list Result :=
  omap (fun o => match o with Ok r => Some r | Raise _ => None end) l.

(** A run of the runner in the concrete environment. *)
Definition demo_run (file : UploadedFile) : outcome Result * State :=
  process_single_file demo_env file ["ocrmypdf"] None demo_state.

(** The last child process of a state. *)
Definition last_run (s : State) : ChildRun :=
  default {| run_argv := []; run_exit := demo_child [] ∅ |} (last (children s)).

Definition demo_good_file : UploadedFile := demo_file "scan.pdf" "%PDF-1.4 scanned".

Definition demo_no_engine_file : UploadedFile :=
  demo_file "scan.pdf" "!TesseractNotFoundError: tesseract is not installed".

Definition demo_both_errors_file : UploadedFile :=
  demo_file "scan.pdf" "!PriorOcrFoundError: page already has text. TesseractNotFoundError".

Definition demo_batch : list UploadedFile :=
  [demo_file "a.png" "page one"; demo_file "b.pdf" "!boom"; demo_file "c.pdf" "page three"].

Definition demo_text_pdf : bytes := list_byte_of_string "BT /F1 12 Tf (Hello) Tj ET".

(** Another stand-in for the external program: it moves its input file to
    the output path, so that the input copy is gone when it exits. *)
Definition demo_moving_child (argv : list string) (files : gmap string bytes) : ChildExit :=
  let inp := default "" (argv !! (length argv - 2)%nat) in
  let outp := default "" (last argv) in
  match files !! inp with
  | Some data =>
      {| exit_fs := <[outp := data]> (delete inp files); returncode := 0;
         child_stdout := ""; child_stderr := "" |}
  | None =>
      {| exit_fs := files; returncode := 2; child_stdout := "";
         child_stderr := "InputFileError: no input" |}
  end.

Definition demo_moving_env : Env :=
  {| cpu_count := Some 4;
     str_lower := ascii_lower;
     pikepdf_open := demo_pikepdf;
     child := demo_moving_child |}.

(** A run of the runner with that program. *)
Definition demo_moving_run (file : UploadedFile) : outcome Result * State :=
  process_single_file demo_moving_env file ["ocrmypdf"] None demo_state.

(** ** Temporary file manager *)

(** One round of the [for file_path in files] loop of the manager's
    [finally] clause. *)
Definition cleanup_file (file_path : string) : M unit :=
  try_except
    (let* e := path_exists file_path in
     if e then
       os_unlink file_path ;;
       logger_info ("清理临时文件: " +:+ file_path)
     else ret ())
    (fun e => logger_warning ("清理临时文件失败 " +:+ file_path +:+ ": " +:+ e)).

Fixpoint cleanup_files (files : list string) : M unit :=
  match files with
  | [] => ret ()
  | file_path :: rest => cleanup_file file_path ;; cleanup_files rest
  end.

(** [with temp_file_manager(a, b, ...): body] with [files] the paths given. *)
Definition temp_file_manager {A} (files : list string) (body : M A) : M A :=
  try_finally body (cleanup_files files).

(** ** Presets and widget defaults *)

(** A value of a preset: a [str] or a [bool]. *)
Inductive PyVal :=
| PyStr (s : string)
| PyBool (b : bool).

(** [CONFIG_PRESETS], in the order of its keys. *)
Definition CONFIG_PRESETS : list (string * gmap string PyVal) :=
  [("文档扫描",
    {["mode" := PyStr "normal"; "language" := PyStr "chi_sim"; "deskew" := PyBool true;
      "clean" := PyBool true; "output_type" := PyStr "pdfa"; "optimize" := PyStr "2"]});
   ("图书扫描",
    {["mode" := PyStr "normal"; "language" := PyStr "chi_sim"; "deskew" := PyBool true;
      "clean" := PyBool true; "rotate_pages" := PyBool true;
      "output_type" := PyStr "pdfa"; "optimize" := PyStr "3"]});
   ("英文文档",
    {["mode" := PyStr "normal"; "language" := PyStr "eng";
      "output_type" := PyStr "pdfa"; "optimize" := PyStr "1"]});
   ("混合语言",
    {["mode" := PyStr "normal"; "language" := PyStr "eng+chi_sim";
      "output_type" := PyStr "pdfa"; "optimize" := PyStr "2"]});
   ("强制重新OCR",
    {["mode" := PyStr "force-ocr"; "language" := PyStr "chi_sim";
      "output_type" := PyStr "pdfa"; "optimize" := PyStr "2"]});
   ("跳过文本页面",
    {["mode" := PyStr "skip-text"; "language" := PyStr "chi_sim";
      "output_type" := PyStr "pdfa"; "optimize" := PyStr "2"]})].

Definition CUSTOM : string := "自定义".

(** The options of the preset select box: [["自定义"] + list(CONFIG_PRESETS.keys())]. *)
Definition preset_options : list string := CUSTOM :: map fst CONFIG_PRESETS.

Definition mode_options : list string := ["normal"; "skip-text"; "force-ocr"; "redo-ocr"].
Definition lang_options : list string :=
  ["eng"; "chi_sim"; "chi_tra"; "eng+chi_sim"; "jpn"; "kor"; "fra"; "deu"; "spa"].
Definition output_options : list string := ["pdfa"; "pdf"; "pdfa-1"; "pdfa-2"; "pdfa-3"].
Definition optimize_options : list string := ["0"; "1"; "2"; "3"].

(** [CONFIG_PRESETS[key]]: a missing key raises [KeyError]. *)
Fixpoint presets_getitem (presets : list (string * gmap string PyVal)) (key : string)
  : outcome (gmap string PyVal) :=
  match presets with
  | [] => Raise ("'" +:+ key +:+ "'")
  | (k, v) :: rest => if String.eqb k key then Ok v else presets_getitem rest key
  end.

(** The [if preset_choice != "自定义"] statement that binds [preset_config]. *)
Definition preset_config_of (preset_choice : string) : outcome (gmap string PyVal) :=
  if negb (String.eqb preset_choice CUSTOM)
  then presets_getitem CONFIG_PRESETS preset_choice
  else Ok ∅.

(** [preset_config.get(key, default)] *)
Definition preset_get (preset_config : gmap string PyVal) (key : string) (default : PyVal)
  : PyVal :=
  match preset_config !! key with
  | Some v => v
  | None => default
  end.

(** [options.index(x)]: the first position of [x]; [ValueError] when it
    is not in the list (a [bool] is not equal to any [str]). *)
Fixpoint list_index (options : list string) (x : PyVal) : outcome nat :=
  match options with
  | [] => Raise "x is not in list"
  | o :: rest =>
      match x with
      | PyStr s =>
          if String.eqb o s then Ok 0%nat
          else match list_index rest x with
               | Ok i => Ok (S i)
               | Raise e => Raise e
               end
      | PyBool _ => Raise "x is not in list"
      end
  end.

(** [bool(v)] *)
Definition pyval_truthy (v : PyVal) : bool :=
  match v with
  | PyStr s => truthy s
  | PyBool b => b
  end.

(** The defaults the sidebar computes from the chosen preset: the indices
    given to the four select boxes and the values given to the four check
    boxes. *)
Record SidebarDefaults := {
  mode_index : nat;
  lang_index : nat;
  output_index : nat;
  optimize_index : nat;
  rotate_pages_value : bool;
  deskew_value : bool;
  clean_value : bool;
  clean_final_value : bool;
}.

Definition sidebar_defaults (preset_choice : string) : outcome SidebarDefaults :=
  match preset_config_of preset_choice with
  | Raise e => Raise e
  | Ok preset_config =>
      match list_index mode_options (preset_get preset_config "mode" (PyStr "normal")) with
      | Raise e => Raise e
      | Ok mi =>
      match list_index lang_options (preset_get preset_config "language" (PyStr "chi_sim")) with
      | Raise e => Raise e
      | Ok li =>
      let rp := pyval_truthy (preset_get preset_config "rotate_pages" (PyBool false)) in
      let dk := pyval_truthy (preset_get preset_config "deskew" (PyBool false)) in
      let cl := pyval_truthy (preset_get preset_config "clean" (PyBool false)) in
      let cf := pyval_truthy (preset_get preset_config "clean_final" (PyBool false)) in
      match list_index output_options (preset_get preset_config "output_type" (PyStr "pdfa")) with
      | Raise e => Raise e
      | Ok oi =>
      match list_index optimize_options (preset_get preset_config "optimize" (PyStr "1")) with
      | Raise e => Raise e
      | Ok pi =>
          Ok {| mode_index := mi; lang_index := li; output_index := oi; optimize_index := pi;
                rotate_pages_value := rp; deskew_value := dk; clean_value := cl;
                clean_final_value := cf |}
      end end end end
  end.

(** [os.cpu_count() or 4] *)
Definition cpu_count_or_4 (E : Env) : Z :=
  match cpu_count E with
  | Some n => if n =? 0 then 4 else n
  | None => 4
  end.

(** The bounds and the default of the thread slider. *)
Definition jobs_slider_min : Z := 1.
Definition jobs_slider_max (E : Env) : Z := cpu_count_or_4 E.
Definition jobs_slider_value (E : Env) : Z := Z.min 4 (cpu_count_or_4 E).

(** ** Vocabulary of the further statements *)

(** The options with other quality values. *)
Definition set_quality (jq pq : Z) (o : Options) : Options :=
  {| mode := mode o; language := language o; pages := pages o; image_dpi := image_dpi o;
     rotate_pages := rotate_pages o; deskew := deskew o; clean := clean o;
     clean_final := clean_final o; output_type := output_type o; optimize := optimize o;
     jpeg_quality := jq; png_quality := pq;
     title := title o; author := author o; subject := subject o; keywords := keywords o;
     jobs := jobs o |}.

(** The options with another thread count. *)
Definition set_jobs (n : Z) (o : Options) : Options :=
  {| mode := mode o; language := language o; pages := pages o; image_dpi := image_dpi o;
     rotate_pages := rotate_pages o; deskew := deskew o; clean := clean o;
     clean_final := clean_final o; output_type := output_type o; optimize := optimize o;
     jpeg_quality := jpeg_quality o; png_quality := png_quality o;
     title := title o; author := author o; subject := subject o; keywords := keywords o;
     jobs := n |}.

(** The concrete environment on a host that does not report its number of
    processors. *)
Definition demo_env_no_cpu : Env :=
  {| cpu_count := None;
     str_lower := ascii_lower;
     pikepdf_open := demo_pikepdf;
     child := demo_child |}.

Definition TYPE_ERROR : string :=
  "'>' not supported between instances of 'int' and 'NoneType'".

#[global] Instance Mode_eq_dec : EqDecision Mode.
Proof. solve_decision. Defined.

#[global] Instance PyVal_eq_dec : EqDecision PyVal.
Proof. solve_decision. Defined.

(** The select box with these options and this index shows this value. *)
Definition shows (options : list string) (index : nat) (v : PyVal) : bool :=
  bool_decide (PyStr <$> options !! index = Some v).

(** The check that the sidebar defaults of a preset entry exist and are
    the values the preset gives. *)
Definition defaults_match (preset_choice : string) : bool :=
  match preset_config_of preset_choice, sidebar_defaults preset_choice with
  | Ok preset_config, Ok d =>
      shows mode_options (mode_index d) (preset_get preset_config "mode" (PyStr "normal"))
      && shows lang_options (lang_index d) (preset_get preset_config "language" (PyStr "chi_sim"))
      && shows output_options (output_index d)
           (preset_get preset_config "output_type" (PyStr "pdfa"))
      && shows optimize_options (optimize_index d)
           (preset_get preset_config "optimize" (PyStr "1"))
  | _, _ => false
  end.

(** The concrete environment with a [pikepdf] that finds these pages in
    every document. *)
Definition demo_env_pages (pdf : list Page) : Env :=
  {| cpu_count := Some 4;
     str_lower := ascii_lower;
     pikepdf_open := fun _ => Ok pdf;
     child := demo_child |}.

(** A document with text on its fourth page only; the second page has no
    [/Contents] and the third cannot be inspected. *)
Definition demo_late_text : list Page :=
  [Ok (Some "q 612 0 0 792 0 0 cm /Im0 Do Q"); Ok None; Raise "not a dictionary";
   Ok (Some "BT /F1 12 Tf (Hello) Tj ET")].

Definition MSG_DETECT_FAILED (e : string) : string := "检测PDF文本时出错: " +:+ e.

(** An upload that makes the stand-in program fail with a message about a
    missing language pack, in capitals. *)
Definition demo_no_language_file : UploadedFile :=
  demo_file "scan.pdf" "!Error: LANGUAGE pack 'fra' Not Found".

(** A state at the entry of the [finally] clause: both locals are bound,
    both files exist, and the operating system refuses the next
    operation. *)
Definition demo_refusing_state : State :=
  {| fs := {["/tmp/tmpa1b2c3d4_scan.pdf" := list_byte_of_string "%PDF-1.4 scanned";
             "/tmp/tmpe5f6g7h8_ocr.pdf" := list_byte_of_string "%PDF-1.4 with text"]};
     tmp_names := [];
     faults := [Some "[Errno 13] Permission denied: '/tmp/tmpa1b2c3d4_scan.pdf'"];
     logs := [];
     ui := [];
     created := ["/tmp/tmpa1b2c3d4_scan.pdf"; "/tmp/tmpe5f6g7h8_ocr.pdf"];
     children := [];
     local_input_file := Some "/tmp/tmpa1b2c3d4_scan.pdf";
     local_output_file := Some "/tmp/tmpe5f6g7h8_ocr.pdf" |}.

(** The start state on a host where the program [ocrmypdf] is not
    installed: the fourth operation of a run, starting the child, is
    refused. *)
Definition demo_no_program_state : State :=
  set_faults [None; None; None; Some "[Errno 2] No such file or directory: 'ocrmypdf'"]
    demo_state.

(** The start state on a host whose temporary directory is not writable:
    the first operation of a run is refused. *)
Definition demo_read_only_state : State :=
  set_faults [Some "[Errno 13] Permission denied: '/tmp/tmpa1b2c3d4_scan.pdf'"] demo_state.

Set Warnings "-clear-no-such-hyp".

(** * Properties *)

(** ** Python strings *)

Lemma append_cons (c : ascii) (s t : string) : String c s +:+ t = String c (s +:+ t).
Proof. reflexivity. Qed.

Lemma append_nil (t : string) : "" +:+ t = t.
Proof. reflexivity. Qed.

Lemma prefix_spec (p s : string) :
  String.prefix p s = true ↔ ∃ post, s = p +:+ post.
Proof.
  revert s. induction p as [|c p IH]; intros s.
  - split; [intros _; by exists s | by destruct s].
  - destruct s as [|d s]; simpl; [split; [done | by intros [? ?]]|].
    setoid_rewrite append_cons.
    destruct (Ascii.ascii_dec c d) as [->|Hcd].
    + rewrite IH. split; intros [post H]; exists post; congruence.
    + split; [done | intros [post H]; congruence].
Qed.

(** [str_in] is the substring test. *)
Lemma str_in_spec (needle hay : string) :
  str_in needle hay = true ↔ ∃ pre post, hay = pre +:+ needle +:+ post.
Proof.
  induction hay as [|c hay IH]; cbn [str_in]; rewrite orb_true_iff, prefix_spec.
  - split.
    + intros [[post H]|]; [|done]. by exists "", post.
    + intros ([|? ?] & post & H); [left; by exists post | done].
  - rewrite IH. split.
    + intros [[post H]|(pre & post & H)].
      * by exists "", post.
      * exists (String c pre), post. by rewrite append_cons, H.
    + intros ([|d pre] & post & H); [left; by exists post|].
      right. exists pre, post. rewrite append_cons in H. congruence.
Qed.

(** [endswith] is the suffix test. *)
Lemma endswith_spec (s suffix : string) :
  endswith s suffix = true ↔ ∃ pre, s = pre +:+ suffix.
Proof.
  induction s as [|c s IH]; cbn [endswith]; rewrite orb_true_iff.
  - split.
    + intros [H|]; [|done]. apply String.eqb_eq in H. by exists "".
    + intros ([|? ?] & H); [|done]. left. by apply String.eqb_eq.
  - rewrite IH. split.
    + intros [H|[pre H]].
      * apply String.eqb_eq in H. by exists "".
      * exists (String c pre). by rewrite append_cons, H.
    + intros ([|d pre] & H).
      * left. by apply String.eqb_eq.
      * right. exists pre. rewrite append_cons in H. congruence.
Qed.

Lemma truthy_false (s : string) : truthy s = false ↔ s = "".
Proof. unfold truthy. destruct (String.eqb_spec s ""); naive_solver. Qed.

Lemma pretty_N_no_dash (n : N) (s : string) : pretty n ≠ "-" +:+ s.
Proof.
  unfold pretty, pretty_N. case_decide; [discriminate|].
  by apply pretty_N_go_ne_dash.
Qed.

(** [str(n)] of an [int] never looks like a long option. *)
Lemma pretty_Z_no_flag (z : Z) (s : string) : pretty z ≠ "--" +:+ s.
Proof.
  destruct z as [|p|p]; unfold pretty, pretty_Z.
  - discriminate.
  - apply (pretty_N_no_dash (Npos p) ("-" +:+ s)).
  - intros H. injection H as H. by apply (pretty_N_no_dash (Npos p) s).
Qed.

(** ** Validator *)

Lemma elem_of_when {A} (b : bool) (x y : A) : x ∈ when b [y] ↔ b = true ∧ x = y.
Proof. destruct b; simpl; rewrite ?list_elem_of_singleton, ?elem_of_nil; naive_solver. Qed.

Lemma MSG_DPI_JOBS (E : Env) : MSG_DPI ≠ MSG_JOBS E.
Proof. intros H. vm_compute in H. discriminate. Qed.

Lemma MSG_JOBS_JPEG (E : Env) : MSG_JOBS E ≠ MSG_JPEG.
Proof. intros H. vm_compute in H. discriminate. Qed.

Lemma MSG_DPI_JPEG : MSG_DPI ≠ MSG_JPEG.
Proof. discriminate. Qed.

(** With a known number of processors the validator returns the violated
    rules in the order DPI, threads, JPEG. *)
Lemma validate_config_Some (E : Env) (n : Z) (config : gmap string Z) :
  cpu_count E = Some n →
  validate_config E config =
    Ok (when ((config_get config "image_dpi" 300 <? 72) || (600 <? config_get config "image_dpi" 300))
          [MSG_DPI]
        ++ when ((config_get config "jobs" 1 <? 1) || (n <? config_get config "jobs" 1))
          [MSG_JOBS E]
        ++ when ((config_get config "jpeg_quality" 75 <? 1) || (100 <? config_get config "jpeg_quality" 75))
          [MSG_JPEG]).
Proof.
  intros Hc. unfold validate_config, gt_cpu_count. rewrite Hc.
  by repeat (destruct (_ <? _); simpl).
Qed.

(** C6: the DPI violation is reported exactly when [image_dpi] is outside
    72..600, the thread-count violation exactly when [jobs] is outside
    1..[os.cpu_count()], the JPEG violation exactly when [jpeg_quality] is
    outside 1..100; each holds whatever the other values are, so no rule
    hides another. *)
Theorem validate_config_ranges (E : Env) (n : Z) (config : gmap string Z) :
  cpu_count E = Some n →
  ∃ errors, validate_config E config = Ok errors ∧
    (MSG_DPI ∈ errors ↔
       config_get config "image_dpi" 300 < 72 ∨ 600 < config_get config "image_dpi" 300) ∧
    (MSG_JOBS E ∈ errors ↔
       config_get config "jobs" 1 < 1 ∨ n < config_get config "jobs" 1) ∧
    (MSG_JPEG ∈ errors ↔
       config_get config "jpeg_quality" 75 < 1 ∨ 100 < config_get config "jpeg_quality" 75).
Proof.
  intros Hc. eexists. split; [by apply validate_config_Some|].
  pose proof (MSG_DPI_JOBS E). pose proof (MSG_JOBS_JPEG E). pose proof MSG_DPI_JPEG.
  rewrite !elem_of_app, !elem_of_when, !orb_true_iff, !Z.ltb_lt.
  naive_solver.
Qed.

(** C9: two configurations that differ only in [png_quality] get the same
    result, and every violation reported is one of the DPI, thread-count
    and JPEG messages: there is no PNG-quality violation. *)
Theorem validate_config_ignores_png_quality (E : Env) (c1 c2 : gmap string Z) :
  differ_only_in "png_quality" c1 c2 →
  validate_config E c1 = validate_config E c2 ∧
  ∀ errors, validate_config E c1 = Ok errors →
    ∀ msg, msg ∈ errors → msg = MSG_DPI ∨ msg = MSG_JOBS E ∨ msg = MSG_JPEG.
Proof.
  intros Hd. split.
  - unfold validate_config, config_get.
    by rewrite (Hd "image_dpi"), (Hd "jobs"), (Hd "jpeg_quality").
  - intros errors He msg. unfold validate_config in He.
    destruct (if _ <? _ then _ else _) as [bad|]; [|done].
    injection He as <-.
    repeat match goal with |- context [if ?b then _ else _] => destruct b end; simpl;
      rewrite ?elem_of_cons, ?elem_of_nil; naive_solver.
Qed.

(** ** Argument synthesis *)

Lemma py_if_extend (c : bool) (x l : list string) : py_if c (extend x) l = l ++ when c x.
Proof. destruct c; simpl; [done | by rewrite app_nil_r]. Qed.

Lemma py_if_append (c : bool) (x : string) (l : list string) :
  py_if c (append x) l = l ++ when c [x].
Proof. destruct c; simpl; [done | by rewrite app_nil_r]. Qed.

(** The argument list is the command name followed by what each rule adds,
    in the order of the rules. *)
Lemma synthesize_linear (E : Env) (f : UploadedFile) (o : Options) :
  synthesize E f o =
    ((((((((((((((["ocrmypdf"]
      ++ when (negb (String.eqb (mode_str (mode o)) "normal")) ["--" +:+ mode_str (mode o)])
      ++ when (truthy (language o)) ["-l"; language o])
      ++ when (truthy (pages o)) ["--pages"; pages o])
      ++ when (negb (is_pdf_name E (name f)) && negb (image_dpi o =? 0))
           ["--image-dpi"; pretty (image_dpi o)])
      ++ when (rotate_pages o) ["--rotate-pages"])
      ++ when (deskew o) ["--deskew"])
      ++ when (clean o) ["--clean"])
      ++ when (clean_final o) ["--clean-final"])
      ++ when (truthy (output_type_str (output_type o)))
           ["--output-type"; output_type_str (output_type o)])
      ++ when (negb (String.eqb (optimize_str (optimize o)) "0"))
           ["--optimize"; optimize_str (optimize o);
            "--jpeg-quality"; pretty (jpeg_quality o);
            "--png-quality"; pretty (png_quality o)])
      ++ when (truthy (title o)) ["--title"; title o])
      ++ when (truthy (author o)) ["--author"; author o])
      ++ when (truthy (subject o)) ["--subject"; subject o])
      ++ when (truthy (keywords o)) ["--keywords"; keywords o])
      ++ when (1 <? jobs o) ["--jobs"; pretty (jobs o)].
Proof.
  unfold synthesize.
  rewrite !py_if_extend, !py_if_append.
  do 5 f_equal.
  destruct (negb _); simpl; [|by rewrite app_nil_r].
  unfold extend. by rewrite <- !app_assoc.
Qed.

Section Count.
Abbreviation count := (count_occ string_dec).

Lemma count_when (b : bool) (x : list string) (t : string) :
  count (when b x) t = if b then count x t else 0%nat.
Proof. by destruct b. Qed.

Lemma count_cons (v t : string) (l : list string) :
  count (v :: l) t = ((if string_dec v t then 1 else 0) + count l t)%nat.
Proof. simpl. by destruct (string_dec v t). Qed.

Lemma dec_ne (a b : string) :
  a ≠ b → (if string_dec a b then 1 else 0)%nat = 0%nat.
Proof. by destruct (string_dec a b). Qed.

Lemma count_truthy (v t : string) :
  t ≠ "" →
  (if truthy v then ((if string_dec v t then 1 else 0) + 0) else 0)%nat
  = (if string_dec v t then 1 else 0)%nat.
Proof.
  intros Ht. rewrite Nat.add_0_r. destruct (truthy v) eqn:Hv; [done|].
  apply truthy_false in Hv as ->. destruct (string_dec "" t); congruence.
Qed.

Lemma if_same (b : bool) : (if b then 0 else 0)%nat = 0%nat.
Proof. by destruct b. Qed.

(** With optimisation level 0, a flag of the optimisation rule occurs in
    the argument list exactly as often as among the free-text values. *)
Lemma synthesize_level0_count (E : Env) (f : UploadedFile) (o : Options) (t : string) :
  optimize o = O0 → t ∈ OPTIMIZE_FLAGS →
  count (synthesize E f o) t = count (free_text_values o) t.
Proof.
  intros Ho Ht. rewrite synthesize_linear. unfold free_text_values. rewrite Ho.
  change (negb (String.eqb (optimize_str O0) "0")) with false.
  assert (t ≠ "" ∧ "--" +:+ mode_str (mode o) ≠ t
          ∧ output_type_str (output_type o) ≠ t
          ∧ (∀ z : Z, pretty z ≠ t)) as (Hne & Hm & Hot & Hz).
  { unfold OPTIMIZE_FLAGS in Ht. rewrite !elem_of_cons, elem_of_nil in Ht.
    destruct Ht as [->|[->|[->|[]]]];
      (split; [done|]); (split; [by destruct (mode o)|]);
      (split; [by destruct (output_type o)|]); intros z.
    - apply (pretty_Z_no_flag z "optimize").
    - apply (pretty_Z_no_flag z "jpeg-quality").
    - apply (pretty_Z_no_flag z "png-quality"). }
  rewrite !count_occ_app, !count_when, !count_cons.
  rewrite (dec_ne _ _ Hm), (dec_ne _ _ Hot).
  rewrite (dec_ne _ _ (Hz (image_dpi o))), (dec_ne _ _ (Hz (jobs o))).
      unfold OPTIMIZE_FLAGS in Ht. rewrite !elem_of_cons, elem_of_nil in Ht.
  destruct Ht as [->|[->|[->|[]]]];
    repeat match goal with
    | |- context [if string_dec (String ?c ?a) ?b then _ else _] =>
        rewrite (dec_ne (String c a) b) by discriminate
    end;
    cbn [count_occ Nat.add]; rewrite !count_truthy by done; rewrite !if_same;
    repeat match goal with
    | |- context [if string_dec ?a ?b then 1%nat else 0%nat] =>
        generalize (if string_dec a b then 1%nat else 0%nat); intro
    end; clear; lia.
Qed.
End Count.

Lemma elem_of_count (l : list string) (t : string) :
  t ∈ l ↔ (0 < count_occ string_dec l t)%nat.
Proof. rewrite list_elem_of_In. apply count_occ_In. Qed.

(** C5: with optimisation level 0 the synthesis emits none of [--optimize],
    [--jpeg-quality], [--png-quality], whatever the quality values: such a
    token occurs in the argument list only as often as the user supplied
    it as a free-text value, so not at all when no free-text value is one
    of the three flags.  With another level the three flags are emitted
    next to each other in this order, each followed by its value. *)
Theorem synthesize_optimize_flags (E : Env) (f : UploadedFile) (o : Options) :
  (optimize o = O0 →
     (∀ t, t ∈ OPTIMIZE_FLAGS →
        count_occ string_dec (synthesize E f o) t = count_occ string_dec (free_text_values o) t) ∧
     ((∀ v, v ∈ free_text_values o → v ∉ OPTIMIZE_FLAGS) →
        ∀ t, t ∈ OPTIMIZE_FLAGS → t ∉ synthesize E f o)) ∧
  (optimize o ≠ O0 →
     has_block ["--optimize"; optimize_str (optimize o);
                "--jpeg-quality"; pretty (jpeg_quality o);
                "--png-quality"; pretty (png_quality o)]
       (synthesize E f o)).
Proof.
  split.
  - intros Ho. split; [intros t Ht; by apply synthesize_level0_count|].
    intros Hfree t Ht. rewrite elem_of_count, (synthesize_level0_count E f o t Ho Ht).
    rewrite <- elem_of_count. intros Hin. by apply (Hfree t).
  - intros Ho. rewrite synthesize_linear.
    replace (negb (String.eqb (optimize_str (optimize o)) "0")) with true
      by (by destruct (optimize o)).
    unfold has_block. cbn [when].
    match goal with
    | |- ∃ pre post, (((((?A ++ _) ++ ?t) ++ ?a) ++ ?s) ++ ?k) ++ ?j = _ =>
        exists A, (t ++ a ++ s ++ k ++ j)
    end.
    by rewrite <- !app_assoc.
Qed.

(** ** Running the model *)

(** Unfolds the monad and the primitive operations. *)
Ltac unfold_py :=
  cbv beta delta [try_except try_finally bind ret raise modify os_unlink path_exists
    stat_st_size read_file write_flush Popen communicate NamedTemporaryFile pikepdf_open_path
    os_call logger_warning logger_info logger_error logger_exception st call] in *.

(** Reads the fields of an updated state. *)
Ltac fields :=
  cbn [fs tmp_names faults logs ui created children local_input_file local_output_file
       set_fs set_tmp_names set_faults add_log add_ui add_created add_child set_locals
       fst snd] in *.

(** Follows every branch of the run. *)
Ltac exec :=
  repeat (fields; rewrite ?lookup_insert_eq in *; case_match; simplify_eq).

Lemma mkstemp_inner_fresh (files : gmap string bytes) (candidates : list string)
    (suffix p : string) (rest : list string) :
  mkstemp_inner files candidates suffix = Some (p, rest) →
  files !! p = None ∧ ∃ c, c ∈ candidates ∧ p = "/tmp/tmp" +:+ c +:+ suffix.
Proof.
  induction candidates as [|c cs IH]; simpl; [done|].
  destruct (files !! ("/tmp/tmp" +:+ c +:+ suffix)) eqn:Hp.
  - intros H. destruct (IH H) as (? & c' & ? & ?). split; [done|].
    exists c'. split; [by right | done].
  - intros [= <- <-]. split; [done|]. exists c. split; [by left | done].
Qed.

(** ** Heuristic text detector *)

Lemma scan_pages_spec (pdf : list Page) :
  scan_pages pdf = true ↔ Exists page_shows_text pdf.
Proof.
  induction pdf as [|page pdf IH]; simpl.
  - split; [done | by intros ?%Exists_nil].
  - rewrite Exists_cons, <- IH. unfold page_shows_text.
    destruct page as [[contents|]|e].
    + destruct (str_in "Tj" contents || str_in "TJ" contents || str_in "Td" contents) eqn:Hc.
      * split; [|done]. intros _. left. exists contents. split; [done|].
        apply orb_true_iff in Hc as [Hc|Hc]; [apply orb_true_iff in Hc as [Hc|Hc]|]; auto.
      * apply orb_false_iff in Hc as [Hc ?]. apply orb_false_iff in Hc as [? ?].
        split; [by right|]. intros [(c & [= <-] & Hs)|?]; [|done].
        destruct Hs as [?|[?|?]]; congruence.
    + split; [by right|]. by intros [(c & ? & _)|?].
    + split; [by right|]. by intros [(c & ? & _)|?].
Qed.

Lemma scan_first_pages (pdf : list Page) :
  scan_pages (take 3 pdf) = true ↔ text_in_first_pages pdf.
Proof.
  rewrite scan_pages_spec, Exists_exists. unfold text_in_first_pages. split.
  - intros (page & Hin & Hp). apply list_elem_of_lookup in Hin as [i Hi].
    apply lookup_take_Some in Hi as [Hi ?]. by exists i, page.
  - intros (i & page & Hi & Hl & Hp). exists page. split; [|done].
    apply list_elem_of_lookup. exists i. by rewrite lookup_take_lt.
Qed.

(** C8: the detector never raises; it answers [True] exactly when the copy
    of the upload could be written, [pikepdf] opens it, and among its first
    three pages one has a [/Contents] whose text form contains [Tj], [TJ]
    or [Td]; in every other case (no such page, a page that cannot be
    inspected, a document that cannot be opened) it answers [False]. *)
Theorem check_pdf_has_text_spec (E : Env) (file_data : bytes) (s : State) :
  ∃ b s', check_pdf_has_text E file_data s = (Ok b, s') ∧
    (b = true ↔
       (∃ tmp s1, stage_copy file_data s = (Ok tmp, s1)) ∧
       ∃ pdf, pikepdf_open E file_data = Ok pdf ∧ text_in_first_pages pdf).
Proof.
  unfold check_pdf_has_text, stage_copy. unfold_py.
  exec.
  all: eexists _, _; (split; [reflexivity|]); split;
    [ first [ discriminate
            | intros _; split;
              [ by eexists _, _
              | eexists; split; [eassumption | by apply scan_first_pages] ] ]
    | first [ done
            | intros [(? & ? & ?) (pdf & Hp & Ht)]; simplify_eq;
              apply scan_first_pages in Ht; congruence ] ].
Qed.

(** C7 (as the code behaves): when the detector answers [True], the
    temporary copy it created is still on the file system, with the
    uploaded bytes in it. *)
Theorem check_pdf_has_text_true_keeps_copy (E : Env) (file_data : bytes) (s s' : State) :
  check_pdf_has_text E file_data s = (Ok true, s') →
  ∃ tmp, created s' = created s ++ [tmp] ∧ fs s !! tmp = None ∧
         fs s' !! tmp = Some file_data.
Proof.
  unfold check_pdf_has_text. unfold_py. intros H.
  exec; fields;
    match goal with
    | Hm : mkstemp_inner _ _ _ = Some (?p, _) |- _ =>
        exists p; apply mkstemp_inner_fresh in Hm as [? _];
        by rewrite ?lookup_insert_eq
    end.
Qed.

(** ** Invocation runner *)

Ltac fresh_facts :=
  repeat match goal with
         | H : mkstemp_inner _ _ _ = Some _ |- _ => apply mkstemp_inner_fresh in H as [? _]
         end;
  repeat match goal with
         | H : <[_:=_]> _ !! _ = None |- _ => apply lookup_insert_None in H as [? ?]
         end.

(** What the [try] statement with its [except] clause does, from a state
    where the two locals are not bound yet: it returns; either no child ran
    and the result is the message of an exception, or one child ran on
    [args] followed by the two temporary paths, and the result is read off
    its exit. *)
Lemma process_attempt_spec (E : Env) (file : UploadedFile) (args : list string)
    (progress_callback : Callback) (s0 : State) :
  let s := set_locals None None s0 in
  ∃ res s1,
    try_except (process_try E file args progress_callback) process_except s = (Ok res, s1) ∧
    created s1 = created s0 ++ bound_files s1 ∧
    (∃ n, ui s1 = ui s0 ++ callback_events progress_callback (take n PROGRESS_CALLS)) ∧
    ((children s1 = children s0 ∧ ∃ e, res = (None, Some (MSG_EXCEPTION e)))
     ∨ ∃ inp outp before,
         let x := child E (args ++ [inp; outp]) before in
         local_input_file s1 = Some inp ∧ local_output_file s1 = Some outp ∧
         inp ≠ outp ∧ fs s0 !! inp = None ∧ fs s0 !! outp = None ∧
         before !! inp = Some (getvalue file) ∧ before !! outp = Some [] ∧
         children s1 = children s0 ++ [{| run_argv := args ++ [inp; outp]; run_exit := x |}] ∧
         fs s1 = exit_fs x ∧
         ((returncode x ≠ 0 ∧
           res = (None, Some (add_hint E (child_stderr x)
                                (ocr_failed_msg (returncode x) (child_stderr x)))))
          ∨ (returncode x = 0 ∧
             ∃ d, exit_fs x !! outp = Some d ∧ d ≠ [] ∧
                  (res = (Some d, None) ∨ ∃ e, res = (None, Some (MSG_EXCEPTION e))))
          ∨ (returncode x = 0 ∧
             (exit_fs x !! outp = None ∨ exit_fs x !! outp = Some []) ∧
             res = (None, Some MSG_NO_OUTPUT)))).
Proof.
  intros s. subst s. unfold process_try, process_except. unfold_py.
  exec.
  all: eexists _, _; (split; [reflexivity|]); fields;
    (split; [unfold bound_files; fields; cbn [option_list];
             by rewrite <- ?app_assoc, ?app_nil_r|]);
    (split; [unfold callback_events, PROGRESS_CALLS;
             first [ by (exists 0%nat; cbn; rewrite ?app_nil_r)
                   | by (exists 1%nat; cbn; rewrite <- ?app_assoc, ?app_nil_r)
                   | by (exists 2%nat; cbn; rewrite <- ?app_assoc, ?app_nil_r)
                   | by (exists 3%nat; cbn; rewrite <- ?app_assoc, ?app_nil_r)
                   | by (exists 0%nat; destruct progress_callback; cbn; rewrite ?app_nil_r) ]|]).
  all: try (left; split; [reflexivity | by eexists]).
  all: right; fresh_facts;
    match goal with |- context [child _ (_ ++ [?i; ?o]) ?b] => exists i, o, b end;
    cbv zeta; rewrite ?lookup_insert_eq.
  all: repeat match goal with |- _ ∧ _ => split; [by simplify_map_eq|] end.
  all: match goal with
       | H : (_ =? 0) = false |- _ => apply Z.eqb_neq in H; left; by split
       | H : (_ =? 0) = true |- _ => apply Z.eqb_eq in H; right
       end.
  all: try match goal with
           | H : bool_decide (is_Some _) = false |- _ =>
               apply bool_decide_eq_false, eq_None_not_Some in H
           end.
  all: first
    [ left; split; [assumption|]; eexists; split; [eassumption|];
      split; [by intros ->|]; first [by left | right; by eexists]
    | right; split; [assumption|]; split; [|reflexivity];
      first [ by left
            | right;
              match goal with
              | H : (0 <? Z.of_nat (length ?l)) = false |- _ =>
                  apply Z.ltb_ge in H; destruct l; [done | simpl in H; lia]
              end ] ].
Qed.

Lemma elem_of_option_list {A} (x : A) (mx : option A) :
  x ∈ option_list mx ↔ mx = Some x.
Proof.
  destruct mx; simpl; rewrite ?list_elem_of_singleton, ?elem_of_nil; naive_solver.
Qed.

(** What the [finally] clause does, from any state: it never raises; it
    leaves no bound temporary file behind, or it logs a warning. *)
Lemma process_finally_spec (s : State) :
  ∃ s', process_finally s = (Ok (), s') ∧
    created s' = created s ∧ children s' = children s ∧ ui s' = ui s ∧
    (((∀ p, p ∈ bound_files s → fs s' !! p = None) ∧ logs s' = logs s)
     ∨ ∃ e, logs s' = logs s ++ [(WARNING, MSG_CLEANUP_FAILED e)]).
Proof.
  unfold process_finally, bound_files. unfold_py.
  exec.
  all: eexists; (split; [reflexivity|]); fields; do 3 (split; [reflexivity|]).
  all: try (right; by eexists).
  all: left; (split; [|reflexivity]);
    repeat match goal with
           | H : local_output_file ?s = _ |- context [local_output_file ?s] => rewrite H
           end;
    cbn [option_list app].
  all: try match goal with
           | H : bool_decide (is_Some _) = false |- _ =>
               apply bool_decide_eq_false, eq_None_not_Some in H
           end.
  all: intros p Hp; rewrite elem_of_app, !elem_of_option_list in Hp;
    destruct_or?; simplify_eq;
    rewrite ?lookup_delete; repeat case_decide; try done;
    match goal with
    | H : delete _ _ !! _ = None |- _ => by rewrite lookup_delete_ne in H
    end.
Qed.

(** The runner is the [try] statement followed by the [finally] clause;
    neither raises. *)
Lemma process_single_file_stages (E : Env) (file : UploadedFile) (args : list string)
    (progress_callback : Callback) (s : State) :
  ∃ res s1 s',
    try_except (process_try E file args progress_callback) process_except
      (set_locals None None s) = (Ok res, s1) ∧
    process_finally s1 = (Ok (), s') ∧
    process_single_file E file args progress_callback s = (Ok res, s').
Proof.
  destruct (process_attempt_spec E file args progress_callback s) as (res & s1 & Ha & _).
  destruct (process_finally_spec s1) as (s' & Hf & _).
  exists res, s1, s'. split; [done|]. split; [done|].
  unfold process_single_file, try_finally, bind, modify.
  cbv zeta in Ha. by rewrite Ha, Hf.
Qed.

Lemma app_singleton_neq {A} (l : list A) (x : A) : l ≠ l ++ [x].
Proof. intros H%(f_equal length). rewrite length_app in H. simpl in H. lia. Qed.

Lemma last_snoc_eq {A} (l : list A) (x : A) : last (l ++ [x]) = Some x.
Proof. by rewrite last_snoc. Qed.

(** The [finally] clause when the file bound to [input_file] is not on the
    file system: [os.unlink] raises at once, the [except] clause logs the
    warning, and the statements after the first [os.unlink] are not
    reached, so that nothing is removed. *)
Lemma process_finally_input_gone (s : State) (p : string) :
  local_input_file s = Some p →
  fs s !! p = None →
  ∃ s' e, process_finally s = (Ok (), s') ∧
    fs s' = fs s ∧ logs s' = logs s ++ [(WARNING, MSG_CLEANUP_FAILED e)].
Proof.
  intros Hl Hf. unfold process_finally. unfold_py. rewrite Hl.
  exec.
  all: fields; simplify_eq.
  all: by eexists _, _.
Qed.

(** The whole runner: it returns; either no child ran and the result is the
    message of an exception, or exactly one child ran, on [args] followed
    by the two temporary files the call created (the copy of the upload and
    an empty output file), and the result is read off its exit. *)
Lemma process_single_file_spec (E : Env) (file : UploadedFile) (args : list string)
    (progress_callback : Callback) (s : State) :
  ∃ res s',
    process_single_file E file args progress_callback s = (Ok res, s') ∧
    (∃ n, ui s' = ui s ++ callback_events progress_callback (take n PROGRESS_CALLS)) ∧
    ((children s' = children s ∧ ∃ e, res = (None, Some (MSG_EXCEPTION e)))
     ∨ ∃ inp outp before,
         let x := child E (args ++ [inp; outp]) before in
         created s' = created s ++ [inp; outp] ∧
         inp ≠ outp ∧ fs s !! inp = None ∧ fs s !! outp = None ∧
         before !! inp = Some (getvalue file) ∧ before !! outp = Some [] ∧
         children s' = children s ++ [{| run_argv := args ++ [inp; outp]; run_exit := x |}] ∧
         ((returncode x ≠ 0 ∧
           res = (None, Some (add_hint E (child_stderr x)
                                (ocr_failed_msg (returncode x) (child_stderr x)))))
          ∨ (returncode x = 0 ∧
             ∃ d, exit_fs x !! outp = Some d ∧ d ≠ [] ∧
                  (res = (Some d, None) ∨ ∃ e, res = (None, Some (MSG_EXCEPTION e))))
          ∨ (returncode x = 0 ∧
             (exit_fs x !! outp = None ∨ exit_fs x !! outp = Some []) ∧
             res = (None, Some MSG_NO_OUTPUT)))).
Proof.
  destruct (process_single_file_stages E file args progress_callback s)
    as (res & s1 & s' & Ha & Hf & Hp).
  destruct (process_attempt_spec E file args progress_callback s)
    as (res' & s1' & Ha' & Hc & Hui & Hcases).
  cbv zeta in Ha'. rewrite Ha in Ha'. injection Ha' as <- <-.
  destruct (process_finally_spec s1) as (s'' & Hf' & Hc' & Hch & Hui' & _).
  rewrite Hf in Hf'. injection Hf' as <-.
  exists res, s'. split; [done|]. rewrite Hch, Hui'. split; [done|].
  destruct Hcases as [?|(inp & outp & before & Hi & Ho & ? & ? & ? & ? & ? & ? & _ & ?)];
    [by left|].
  right. exists inp, outp, before. cbv zeta. rewrite Hc', Hc.
  unfold bound_files. rewrite Hi, Ho. done.
Qed.

(** C1 (as the code behaves): when the child exits non-zero and its
    standard error contains [TesseractNotFoundError], the advice appended
    to the failure message depends on the two substrings that are tested
    first: with neither [PriorOcrFoundError] nor [page already has text]
    in the standard error it is the advice for a missing engine; with at
    least one of them it is the advice for a PDF that already has text. *)
Theorem process_single_file_engine_not_found (E : Env) (file : UploadedFile)
    (args : list string) (progress_callback : Callback) (s s' : State)
    (r : outcome Result) (run : ChildRun) :
  process_single_file E file args progress_callback s = (r, s') →
  children s' = children s ++ [run] →
  returncode (run_exit run) ≠ 0 →
  str_in "TesseractNotFoundError" (child_stderr (run_exit run)) = true →
  (str_in "PriorOcrFoundError" (child_stderr (run_exit run)) = false ∧
   str_in "page already has text" (child_stderr (run_exit run)) = false →
   r = Ok (None, Some (ocr_failed_msg (returncode (run_exit run)) (child_stderr (run_exit run))
                         +:+ HINT_NO_TESSERACT))) ∧
  (str_in "PriorOcrFoundError" (child_stderr (run_exit run)) = true ∨
   str_in "page already has text" (child_stderr (run_exit run)) = true →
   r = Ok (None, Some (ocr_failed_msg (returncode (run_exit run)) (child_stderr (run_exit run))
                         +:+ HINT_HAS_TEXT))).
Proof.
  intros Hp Hch Hrc Ht.
  destruct (process_single_file_spec E file args progress_callback s)
    as (res & s'' & Hp' & _ & Hcases).
  rewrite Hp in Hp'. injection Hp' as -> <-.
  destruct Hcases as [[Hn _]|(inp & outp & before & _ & _ & _ & _ & _ & _ & Hch' & Hres)].
  { rewrite Hn in Hch. by apply app_singleton_neq in Hch. }
  cbv zeta in *. rewrite Hch' in Hch. apply app_inv_head in Hch. injection Hch as <-.
  cbn [run_exit] in *.
  destruct Hres as [[_ ->]|[[? _]|[? _]]]; [|done..].
  unfold add_hint. split.
  - intros [Hp1 Hp2]. by rewrite Hp1, Hp2, Ht.
  - intros [Hp1|Hp2].
    + by rewrite Hp1.
    + rewrite Hp2. by rewrite orb_true_r.
Qed.

(** C3: for a run whose child exited and in which no exception was caught,
    the result is success with bytes [d] exactly when the exit code is 0
    and the output file exists with the non-empty contents [d]; with exit
    code 0 and the output file missing or empty the result is the
    no-output failure. *)
Theorem process_single_file_success_iff (E : Env) (file : UploadedFile)
    (args : list string) (progress_callback : Callback) (s s' : State)
    (r : outcome Result) (run : ChildRun) :
  process_single_file E file args progress_callback s = (r, s') →
  children s' = children s ++ [run] →
  (∀ e, r ≠ Ok (None, Some (MSG_EXCEPTION e))) →
  ∃ inp outp,
    run_argv run = args ++ [inp; outp] ∧
    created s' = created s ++ [inp; outp] ∧
    (∀ d, r = Ok (Some d, None) ↔
          returncode (run_exit run) = 0 ∧
          exit_fs (run_exit run) !! outp = Some d ∧ (0 < length d)%nat) ∧
    (returncode (run_exit run) = 0 →
     exit_fs (run_exit run) !! outp = None ∨ exit_fs (run_exit run) !! outp = Some [] →
     r = Ok (None, Some MSG_NO_OUTPUT)).
Proof.
  intros Hp Hch Hne.
  destruct (process_single_file_spec E file args progress_callback s)
    as (res & s'' & Hp' & _ & Hcases).
  rewrite Hp in Hp'. injection Hp' as -> <-.
  destruct Hcases as [[Hn _]|(inp & outp & before & Hcr & _ & _ & _ & _ & _ & Hch' & Hres)].
  { rewrite Hn in Hch. by apply app_singleton_neq in Hch. }
  cbv zeta in *. rewrite Hch' in Hch. apply app_inv_head in Hch. injection Hch as <-.
  cbn [run_exit run_argv] in *.
  exists inp, outp. split; [done|]. split; [done|].
  destruct Hres as [[Hrc ->]|[(Hrc & d & Hd & Hnil & Hres)|(Hrc & Hd & ->)]].
  - split; [|done]. intros d. split; [done | by intros [? _]].
  - destruct Hres as [->|[e ->]]; [|by destruct (Hne e)].
    split.
    + intros d'. split.
      * intros [= <-]. repeat split; [done..|]. destruct d; [done | simpl; lia].
      * intros (_ & Hd' & _). rewrite Hd in Hd'. by injection Hd' as ->.
    + intros _ [Hd'|Hd']; rewrite Hd in Hd'; by simplify_eq.
  - split; [|done]. intros d. split; [done|].
    intros (_ & Hd' & Hlen). destruct Hd as [Hd|Hd]; rewrite Hd in Hd'; [done|].
    injection Hd' as <-. simpl in Hlen. lia.
Qed.

(** C2 (where the code departs from it): both [os.unlink] calls of the
    [finally] clause are in one [try].  In a run whose child removed the
    input copy, the first [os.unlink] raises, the [except] clause logs the
    warning, and the [os.unlink] of the output file is never reached: the
    call returns a result, and the file system at return is the one the
    child left, so the output file the child wrote, a temporary file this
    call created, is still there. *)
Theorem process_single_file_keeps_output_file (E : Env) (file : UploadedFile)
    (args : list string) (progress_callback : Callback) (s s' : State)
    (r : outcome Result) (run : ChildRun) (inp outp : string) (d : bytes) :
  process_single_file E file args progress_callback s = (r, s') →
  children s' = children s ++ [run] →
  run_argv run = args ++ [inp; outp] →
  exit_fs (run_exit run) !! inp = None →
  exit_fs (run_exit run) !! outp = Some d →
  (∃ res, r = Ok res) ∧
  created s' = created s ++ [inp; outp] ∧
  fs s !! outp = None ∧
  fs s' !! outp = Some d ∧
  fs s' = exit_fs (run_exit run) ∧
  ∃ e, last (logs s') = Some (WARNING, MSG_CLEANUP_FAILED e).
Proof.
  intros Hp Hch Hargv Hgone Hout.
  destruct (process_single_file_stages E file args progress_callback s)
    as (res & s1 & s'' & Ha & Hf & Hp').
  rewrite Hp in Hp'. injection Hp' as -> <-.
  destruct (process_attempt_spec E file args progress_callback s)
    as (res' & s1' & Ha' & Hc & _ & Hcases).
  cbv zeta in Ha'. rewrite Ha in Ha'. injection Ha' as <- <-.
  destruct (process_finally_spec s1) as (s'' & Hf' & Hc' & Hch' & _ & _).
  rewrite Hf in Hf'. injection Hf' as <-.
  rewrite Hch' in Hch.
  destruct Hcases as [[Hn _]|(inp' & outp' & before & Hi & Ho & _ & _ & Hfresh & _ & _
                              & Hch1 & Hfs & _)].
  { rewrite Hn in Hch. by apply app_singleton_neq in Hch. }
  cbv zeta in *. rewrite Hch1 in Hch. apply app_inv_head in Hch. injection Hch as <-.
  cbn [run_exit run_argv] in *.
  apply app_inv_head in Hargv. injection Hargv as <- <-.
  destruct (process_finally_input_gone s1 inp' Hi) as (s'' & e & Hf' & Hfs' & Hlog).
  { by rewrite Hfs. }
  rewrite Hf in Hf'. injection Hf' as <-.
  split; [by eexists|]. split.
  { rewrite Hc', Hc. unfold bound_files. by rewrite Hi, Ho. }
  split; [done|]. rewrite Hfs', Hfs. split; [done|]. split; [done|].
  exists e. by rewrite Hlog, last_snoc.
Qed.

(** ** Batch loop *)

Lemma overall_progress_values_app (l1 l2 : list UiEvent) :
  overall_progress_values (l1 ++ l2) = overall_progress_values l1 ++ overall_progress_values l2.
Proof.
  induction l1 as [|e l1 IH]; [done|]. simpl.
  destruct e as [| | |[] v|]; simpl; by rewrite ?IH.
Qed.

(** The callback of the loop never touches the overall progress bar. *)
Lemma overall_progress_values_callback (calls : list (string * Z)) :
  overall_progress_values (callback_events (Some batch_progress_callback) calls) = [].
Proof. induction calls as [|c calls IH]; [done|]. simpl. apply IH. Qed.

Lemma batch_iteration_after_call (E : Env) (total : nat) (args : list string) (i : nat)
    (file : UploadedFile) (results : Successes) (errors : Failures) (s s1 : State)
    (res : Result) :
  batch_call E total args i file s = (Ok res, s1) →
  batch_iteration E total args i file results errors s
  = (Ok (recorded file res results errors),
     add_ui [SetProgress OverallProgress (PyFloat (overall_fraction i total))]
       (add_ui (record_events file res) s1)).
Proof.
  intros Hc. unfold batch_iteration. unfold bind at 1. rewrite Hc.
  destruct res as [output_data error].
  unfold batch_record, recorded, record_events. cbn [fst snd].
  by destruct (bytes_truthy output_data).
Qed.

(** One iteration: the call returns some [res]; the lists are extended by
    it; the overall progress bar is set once, to [(i + 1) / total]; the
    state left does not depend on the lists. *)
Lemma batch_iteration_spec (E : Env) (total : nat) (args : list string) (i : nat)
    (file : UploadedFile) (results : Successes) (errors : Failures) (s : State) :
  ∃ res s1 s',
    batch_call E total args i file s = (Ok res, s1) ∧
    batch_iteration E total args i file results errors s
      = (Ok (recorded file res results errors), s') ∧
    snd (batch_iteration E total args i file [] [] s) = s' ∧
    well_formed_result res ∧
    (∃ runs, children s' = children s ++ runs ∧ (length runs ≤ 1)%nat ∧
             Forall (run_on args) runs) ∧
    overall_progress_values (ui s')
      = overall_progress_values (ui s) ++ [PyFloat (overall_fraction i total)].
Proof.
  assert (batch_call E total args i file s
          = process_single_file E file args (Some batch_progress_callback)
              (add_ui [NewProgress FileProgress (PyInt 0); NewEmpty FileStatus]
                 (add_ui [SetText OverallStatus
                            ("正在处理第 " +:+ pretty (i + 1)%nat +:+ "/" +:+ pretty total
                               +:+ " 个文件: " +:+ name file)] s))) as Hcall by reflexivity.
  destruct (process_single_file_spec E file args (Some batch_progress_callback)
              (add_ui [NewProgress FileProgress (PyInt 0); NewEmpty FileStatus]
                 (add_ui [SetText OverallStatus
                            ("正在处理第 " +:+ pretty (i + 1)%nat +:+ "/" +:+ pretty total
                               +:+ " 个文件: " +:+ name file)] s)))
    as (res & s1 & Hp & [n Hui] & Hcases).
  rewrite <- Hcall in Hp. clear Hcall. fields.
  exists res, s1. eexists. split; [done|].
  rewrite !(batch_iteration_after_call _ _ _ _ _ _ _ _ _ _ Hp).
  split; [reflexivity|]. split; [reflexivity|]. fields.
  split.
  { destruct Hcases as [[_ [e ->]]|(? & ? & ? & _ & _ & _ & _ & _ & _ & _ & Hres)].
    - right. by eexists.
    - cbv zeta in Hres.
      destruct Hres as [[_ ->]|[(_ & d & _ & ? & [->|[e ->]])|(_ & _ & ->)]];
        (by right; eexists) || (left; by eexists). }
  split.
  { destruct Hcases as [[-> _]|(inp & outp & ? & _ & _ & _ & _ & _ & _ & -> & _)].
    - exists []. split; [by rewrite app_nil_r|]. split; [simpl; lia | constructor].
    - eexists [_]. split; [done|]. split; [simpl; lia|].
      apply Forall_singleton. by exists inp, outp. }
  rewrite Hui, !overall_progress_values_app, overall_progress_values_callback.
  unfold record_events. destruct (bytes_truthy _); cbn; by rewrite !app_nil_r.
Qed.

Lemma recorded_eq (file : UploadedFile) (res : Result) (results : Successes)
    (errors : Failures) (files : list UploadedFile) (rs : list Result) :
  let acc := recorded file res results errors in
  (fst acc ++ successes files rs, snd acc ++ failures files rs)
  = (results ++ successes (file :: files) (res :: rs),
     errors ++ failures (file :: files) (res :: rs)).
Proof.
  unfold recorded. simpl. destruct (bytes_truthy (fst res)); simpl;
    by rewrite <- ?app_assoc.
Qed.

(** The loop never aborts: it runs every file left, returns the lists
    extended by the successes and the failures in the order of the files,
    and sets the overall progress bar once after each file, to
    [(j + 1) / total] for the file of index [j]. *)
Lemma batch_loop_spec (E : Env) (total : nat) (args : list string)
    (files : list UploadedFile) :
  ∀ (i : nat) (results : Successes) (errors : Failures) (s : State),
  ∃ rs s',
    batch_outcomes E total args i files s = Ok <$> rs ∧
    length rs = length files ∧
    Forall well_formed_result rs ∧
    batch_loop E total args i files results errors s
      = (Ok (results ++ successes files rs, errors ++ failures files rs), s') ∧
    (∃ runs, children s' = children s ++ runs ∧ (length runs ≤ length files)%nat ∧
             Forall (run_on args) runs) ∧
    overall_progress_values (ui s')
      = overall_progress_values (ui s)
        ++ ((fun j => PyFloat (overall_fraction j total)) <$> seq i (length files)).
Proof.
  induction files as [|file files IH]; intros i results errors s.
  - exists [], s. simpl. rewrite !app_nil_r. repeat split; try done.
    exists []. by rewrite app_nil_r.
  - destruct (batch_iteration_spec E total args i file results errors s)
      as (res & s1 & s2 & Hc & Hi & Hs & Hwf & (runs & Hch & Hlen & Hruns) & Hui).
    destruct (IH (S i) (fst (recorded file res results errors))
                (snd (recorded file res results errors)) s2)
      as (rs & s' & Ho & Hl & Hwfs & Hloop & (runs' & Hch' & Hlen' & Hruns') & Hui').
    exists (res :: rs), s'. cbn [batch_outcomes batch_loop].
    rewrite Hc, Hs, Ho. split; [done|]. split; [simpl; lia|].
    split; [by constructor|]. split.
    + unfold bind. rewrite Hi, Hloop. by rewrite recorded_eq.
    + split.
      * exists (runs ++ runs'). rewrite Hch', Hch, app_assoc. split; [done|].
        split; [rewrite length_app; simpl; lia | by apply Forall_app].
      * rewrite Hui', Hui. cbn [length seq fmap list_fmap]. by rewrite <- app_assoc.
Qed.

Lemma overall_fraction_last (n : nat) : (0 < n)%nat → (overall_fraction (n - 1) n == 1)%Q.
Proof.
  intros Hn. unfold overall_fraction. replace (n - 1 + 1)%nat with n by lia.
  apply Qmult_inv_r. unfold Qeq. simpl. lia.
Qed.

(** With one failing file and every other file succeeding, the failures
    are that file alone and the successes are the others, in order. *)
Lemma single_failure (files : list UploadedFile) (rs : list Result) :
  ∀ (k : nat) (file_k : UploadedFile) (msg : option string),
  length rs = length files →
  files !! k = Some file_k →
  rs !! k = Some (None, msg) →
  (∀ i res, i ≠ k → rs !! i = Some res → ∃ d, res = (Some d, None) ∧ d ≠ []) →
  failures files rs = [(name file_k, msg)] ∧
  successes files rs
    = zip_with (fun file res => (file, default [] (fst res))) (delete k files) (delete k rs).
Proof.
  revert rs. induction files as [|file files IH]; intros [|res rs] k file_k msg Hl Hf Hr Ho;
    try done.
  destruct k as [|k]; simpl in *.
  - injection Hf as ->. injection Hr as ->. simpl.
    assert (∀ (fl : list UploadedFile) (l : list Result),
              (∀ i res, l !! i = Some res → ∃ d, res = (Some d, None) ∧ d ≠ []) →
              failures fl l = [] ∧
              successes fl l = zip_with (fun file res => (file, default [] (fst res))) fl l)
      as Hall.
    { clear. induction fl as [|f fl IH]; intros [|r l] Hok; try done. simpl.
      destruct (Hok 0%nat r eq_refl) as (d & -> & Hd).
      destruct (IH l (fun i => Hok (S i))) as [-> ->].
      by destruct d. }
    destruct (Hall files rs (fun i res => Ho (S i) res (Nat.neq_succ_0 i))) as [-> ->].
    done.
  - destruct (Ho 0%nat res (Nat.neq_0_succ k) eq_refl) as (d & -> & Hd).
    destruct (IH rs k file_k msg) as [-> ->]; [lia | done | done | |].
    + intros i r Hi. apply (Ho (S i)). lia.
    + by destruct d.
Qed.

Lemma fmap_Ok_inj {A} (l1 l2 : list A) : Ok <$> l1 = Ok <$> l2 → l1 = l2.
Proof.
  revert l2. induction l1 as [|x l1 IH]; intros [|y l2] H; try done.
  injection H as -> H. f_equal. by apply IH.
Qed.

(** The batch branch never aborts: it returns the successes and the
    failures of all the files, in order, and the overall progress bar was
    set to [(j + 1) / N] after each file [j]. *)
Lemma run_batch_spec (E : Env) (files : list UploadedFile) (args : list string) (s : State) :
  ∃ rs s',
    run_batch_outcomes E files args s = Ok <$> rs ∧
    length rs = length files ∧
    Forall well_formed_result rs ∧
    run_batch E files args s = (Ok (successes files rs, failures files rs), s') ∧
    (∃ runs, children s' = children s ++ runs ∧ (length runs ≤ length files)%nat ∧
             Forall (run_on args) runs) ∧
    overall_progress_values (ui s')
      = overall_progress_values (ui s)
        ++ ((fun j => PyFloat (overall_fraction j (length files))) <$> seq 0 (length files)).
Proof.
  destruct (batch_loop_spec E (length files) args files 0 [] []
              (add_ui [NewProgress OverallProgress (PyInt 0); NewEmpty OverallStatus] s))
    as (rs & s1 & Ho & Hl & Hwf & Hloop & Hruns & Hui).
  exists rs. eexists. split; [done|]. split; [done|]. split; [done|].
  unfold run_batch. unfold bind, st, modify at 1. rewrite Hloop.
  unfold modify, ret. cbn [fst snd]. split; [reflexivity|]. fields.
  split; [done|]. rewrite overall_progress_values_app, Hui. fields.
  rewrite overall_progress_values_app. cbn. by rewrite !app_nil_r.
Qed.

(** C4: in a batch in which file [k] fails with a message and every other
    file succeeds, the loop runs all the files and returns; the failures
    are exactly the name of file [k] with its message; the successes are
    the other [N - 1] files, in order, each with its output bytes; the
    overall progress bar is set to [(i + 1) / N] after the file of index
    [i], so to 1 after the last one. *)
Theorem run_batch_single_failure (E : Env) (files : list UploadedFile)
    (args : list string) (s : State) (rs : list Result) (k : nat)
    (file_k : UploadedFile) (msg : string) :
  run_batch_outcomes E files args s = Ok <$> rs →
  files !! k = Some file_k →
  rs !! k = Some (None, Some msg) →
  (∀ i res, i ≠ k → rs !! i = Some res → ∃ d, res = (Some d, None)) →
  ∃ results errors s',
    run_batch E files args s = (Ok (results, errors), s') ∧
    errors = [(name file_k, Some msg)] ∧
    results = zip_with (fun file res => (file, default [] (fst res)))
                (delete k files) (delete k rs) ∧
    length results = (length files - 1)%nat ∧
    overall_progress_values (ui s')
      = overall_progress_values (ui s)
        ++ ((fun i => PyFloat (overall_fraction i (length files))) <$> seq 0 (length files)) ∧
    ∃ q, last (overall_progress_values (ui s')) = Some (PyFloat q) ∧ (q == 1)%Q.
Proof.
  intros Ho Hk Hr Hothers.
  destruct (run_batch_spec E files args s)
    as (rs' & s' & Ho' & Hl & Hwf & Hrun & _ & Hui).
  rewrite Ho in Ho'. apply fmap_Ok_inj in Ho' as <-.
  destruct (single_failure files rs k file_k (Some msg) Hl Hk Hr) as [Hf Hs].
  { intros i res Hi Hres. destruct (Hothers i res Hi Hres) as [d ->].
    exists d. split; [done|].
    apply (Forall_lookup_1 _ _ _ _ Hwf) in Hres as [(d' & [= <-] & ?)|[? [=]]]. done. }
  exists (successes files rs), (failures files rs), s'.
  split; [done|]. split; [done|]. split; [done|].
  assert (k < length files)%nat as Hlt by (by eapply lookup_lt_Some).
  split.
  { rewrite Hs, length_zip_with.
    rewrite (length_delete files k) by (by rewrite Hk).
    pose proof (length_delete rs k (mk_is_Some _ _ Hr)) as Hd. unfold Result in *. lia. }
  split; [done|].
  exists (overall_fraction (length files - 1) (length files)).
  split; [|apply overall_fraction_last; lia].
  rewrite Hui. destruct (length files) as [|n]; [lia|].
  rewrite seq_S, fmap_app, app_assoc. simpl. rewrite last_snoc.
  by rewrite Nat.sub_0_r.
Qed.

(** ** Button handler *)

(** The argument list depends on the file only through whether its name
    ends in [.pdf]. *)
Lemma synthesize_file (E : Env) (f1 f2 : UploadedFile) (o : Options) :
  is_pdf_name E (name f1) = is_pdf_name E (name f2) →
  synthesize E f1 o = synthesize E f2 o.
Proof. intros H. rewrite !synthesize_linear. by rewrite H. Qed.

(** When the file is a PDF, [--image-dpi] occurs in the argument list
    exactly as often as among the free-text values. *)
Lemma synthesize_pdf_count (E : Env) (f : UploadedFile) (o : Options) :
  is_pdf_name E (name f) = true →
  count_occ string_dec (synthesize E f o) "--image-dpi"
  = count_occ string_dec (free_text_values o) "--image-dpi".
Proof.
  intros Hpdf. rewrite synthesize_linear. unfold free_text_values. rewrite Hpdf.
  change (negb true && negb (image_dpi o =? 0)) with false.
  assert ("--" +:+ mode_str (mode o) ≠ "--image-dpi") as Hm by (by destruct (mode o)).
  assert (output_type_str (output_type o) ≠ "--image-dpi") as Hot
    by (by destruct (output_type o)).
  assert (optimize_str (optimize o) ≠ "--image-dpi") as Hop by (by destruct (optimize o)).
  assert (∀ z : Z, pretty z ≠ "--image-dpi") as Hz
    by (intros z; apply (pretty_Z_no_flag z "image-dpi")).
  rewrite !count_occ_app, !count_when, !count_cons.
  rewrite (dec_ne _ _ Hm), (dec_ne _ _ Hot), (dec_ne _ _ Hop).
  rewrite (dec_ne _ _ (Hz (jobs o))), (dec_ne _ _ (Hz (jpeg_quality o))),
    (dec_ne _ _ (Hz (png_quality o))).
  repeat match goal with
         | |- context [if string_dec (String ?c ?a) ?b then _ else _] =>
             rewrite (dec_ne (String c a) b) by discriminate
         end.
  cbn [count_occ Nat.add]. rewrite !count_truthy by done. rewrite !if_same.
  repeat match goal with
         | |- context [if string_dec ?a ?b then 1%nat else 0%nat] =>
             generalize (if string_dec a b then 1%nat else 0%nat); intro
         end.
  clear. lia.
Qed.

Lemma has_block_app (sub l x : list string) : has_block sub l → has_block sub (l ++ x).
Proof. intros (pre & post & ->). exists pre, (post ++ x). by rewrite <- !app_assoc. Qed.

Lemma has_block_end (sub l : list string) : has_block sub (l ++ sub).
Proof. exists l, []. by rewrite app_nil_r. Qed.

(** When the file is not a PDF and [image_dpi] is not 0, [--image-dpi]
    and the value are emitted. *)
Lemma synthesize_image_dpi (E : Env) (f : UploadedFile) (o : Options) :
  is_pdf_name E (name f) = false → image_dpi o ≠ 0 →
  has_block ["--image-dpi"; pretty (image_dpi o)] (synthesize E f o).
Proof.
  intros Hpdf Hdpi. rewrite synthesize_linear, Hpdf.
  replace (image_dpi o =? 0) with false by (symmetry; by apply Z.eqb_neq).
  cbn [negb andb when]. do 11 apply has_block_app. apply has_block_end.
Qed.

Lemma config_get_current (o : Options) :
  config_get (current_config o) "image_dpi" 300 = image_dpi o ∧
  config_get (current_config o) "jobs" 1 = jobs o ∧
  config_get (current_config o) "jpeg_quality" 75 = jpeg_quality o.
Proof. unfold config_get, current_config. by simplify_map_eq. Qed.

(** A configuration without violations has its values in range. *)
Lemma validate_config_passes (E : Env) (o : Options) :
  validate_config E (current_config o) = Ok [] →
  72 ≤ image_dpi o ≤ 600 ∧ 1 ≤ jpeg_quality o ≤ 100 ∧
  ∃ n, cpu_count E = Some n ∧ 1 ≤ jobs o ≤ n.
Proof.
  unfold validate_config, gt_cpu_count.
  destruct (config_get_current o) as (-> & -> & ->).
  destruct (cpu_count E) as [n|];
    repeat match goal with |- context [?a <? ?b] => destruct (Z.ltb_spec0 a b) end;
    simpl; intros [=]. repeat split; try lia. exists n. split; [done | lia].
Qed.

(** C10: in batch mode with more than one file the argument list is
    synthesized once, from the first file, and every child process of the
    batch is run on that same list followed by its two paths; the list
    depends on the files only through whether the first file's name ends
    in [.pdf]: when it does not, [--image-dpi] and its value are in the
    list for every file, PDFs included, and when it does, the rule adds
    nothing, for images too. *)
Theorem batch_args_from_first_file (E : Env) (files : list UploadedFile) (o : Options)
    (s s' : State) (r : outcome Clicked) :
  (1 < length files)%nat →
  on_click E true files o s = (r, s') →
  ∃ first rest,
    files = first :: rest ∧
    (∀ f, is_pdf_name E (name f) = is_pdf_name E (name first) →
          synthesize E f o = synthesize E first o) ∧
    (∃ runs, children s' = children s ++ runs ∧
             Forall (run_on (synthesize E first o)) runs) ∧
    (validate_config E (current_config o) = Ok [] →
       (∃ results errors, r = Ok (BatchDone results errors)) ∧
       (is_pdf_name E (name first) = false →
          has_block ["--image-dpi"; pretty (image_dpi o)] (synthesize E first o)) ∧
       (is_pdf_name E (name first) = true →
          count_occ string_dec (synthesize E first o) "--image-dpi"
          = count_occ string_dec (free_text_values o) "--image-dpi")).
Proof.
  intros Hlen Hclick. destruct files as [|first rest]; [simpl in Hlen; lia|].
  exists first, rest. split; [done|]. split; [intros f Hf; by apply synthesize_file|].
  unfold on_click in Hclick.
  destruct (validate_config E (current_config o)) as [[|e es]|e] eqn:Hv.
  - rewrite bool_decide_eq_true_2 in Hclick by done. cbn [andb] in Hclick.
    destruct (run_batch_spec E (first :: rest) (synthesize E first o) s)
      as (rs & s1 & _ & _ & _ & Hrun & (runs & Hch & _ & Hruns) & _).
    unfold bind, ret in Hclick. rewrite Hrun in Hclick. injection Hclick as <- <-.
    split; [by exists runs|]. intros _. split; [by eexists _, _|].
    split; [|apply synthesize_pdf_count].
    intros Hpdf. apply synthesize_image_dpi; [done|].
    apply validate_config_passes in Hv. lia.
  - unfold bind, st, modify, ret in Hclick. injection Hclick as <- <-.
    split; [|done]. exists []. by rewrite app_nil_r.
  - unfold raise in Hclick. injection Hclick as <- <-.
    split; [|done]. exists []. by rewrite app_nil_r.
Qed.

(** ** The model at concrete inputs *)

Lemma validate_config_ranges_witness :
  cpu_count demo_env = Some 4 ∧
  ∃ errors, validate_config demo_env {["image_dpi" := 50; "jobs" := 8]} = Ok errors ∧
    (MSG_DPI ∈ errors ↔
       config_get {["image_dpi" := 50; "jobs" := 8]} "image_dpi" 300 < 72
       ∨ 600 < config_get {["image_dpi" := 50; "jobs" := 8]} "image_dpi" 300) ∧
    (MSG_JOBS demo_env ∈ errors ↔
       config_get {["image_dpi" := 50; "jobs" := 8]} "jobs" 1 < 1
       ∨ 4 < config_get {["image_dpi" := 50; "jobs" := 8]} "jobs" 1) ∧
    (MSG_JPEG ∈ errors ↔
       config_get {["image_dpi" := 50; "jobs" := 8]} "jpeg_quality" 75 < 1
       ∨ 100 < config_get {["image_dpi" := 50; "jobs" := 8]} "jpeg_quality" 75).
Proof.
  split; [reflexivity|].
  apply (validate_config_ranges demo_env 4 {["image_dpi" := 50; "jobs" := 8]}).
  reflexivity.
Defined.

Lemma validate_config_ignores_png_quality_witness :
  differ_only_in "png_quality"
    {["png_quality" := 1; "image_dpi" := 700]} {["png_quality" := 5000; "image_dpi" := 700]} ∧
  validate_config demo_env {["png_quality" := 1; "image_dpi" := 700]}
  = validate_config demo_env {["png_quality" := 5000; "image_dpi" := 700]}.
Proof.
  assert (differ_only_in "png_quality"
            {["png_quality" := 1; "image_dpi" := 700]}
            {["png_quality" := 5000; "image_dpi" := 700]}) as Hd.
  { intros k Hk. by rewrite !lookup_insert_ne. }
  split; [exact Hd|].
  exact (proj1 (validate_config_ignores_png_quality demo_env _ _ Hd)).
Defined.

Lemma synthesize_optimize_flags_witness :
  (optimize demo_options_level0 = O0 ∧
   "--jpeg-quality" ∉ synthesize demo_env demo_good_file demo_options_level0) ∧
  (optimize demo_options ≠ O0 ∧
   has_block ["--optimize"; "2"; "--jpeg-quality"; "75"; "--png-quality"; "75"]
     (synthesize demo_env demo_good_file demo_options)).
Proof.
  split; split.
  - reflexivity.
  - apply (proj2 (proj1 (synthesize_optimize_flags demo_env demo_good_file demo_options_level0)
                    eq_refl)).
    + intros v Hv Hf. apply list_elem_of_In in Hv. apply list_elem_of_In in Hf.
      simpl in Hv, Hf. destruct_or!; by simplify_eq.
    + unfold OPTIMIZE_FLAGS. rewrite !elem_of_cons. auto.
  - discriminate.
  - apply (proj2 (synthesize_optimize_flags demo_env demo_good_file demo_options)).
    discriminate.
Defined.

Lemma pair_eta {A B} (p : A * B) : p = (fst p, snd p).
Proof. by destruct p. Defined.

Lemma process_single_file_engine_not_found_witness :
  let p := demo_run demo_no_engine_file in
  let q := demo_run demo_both_errors_file in
  let x := run_exit (last_run (snd p)) in
  let y := run_exit (last_run (snd q)) in
  (returncode x = 1 ∧
   child_stderr x = "TesseractNotFoundError: tesseract is not installed" ∧
   fst p = Ok (None, Some (ocr_failed_msg (returncode x) (child_stderr x)
                             +:+ HINT_NO_TESSERACT))) ∧
  (returncode y = 1 ∧
   child_stderr y = "PriorOcrFoundError: page already has text. TesseractNotFoundError" ∧
   fst q = Ok (None, Some (ocr_failed_msg (returncode y) (child_stderr y)
                             +:+ HINT_HAS_TEXT))).
Proof.
  intros p q x y. split.
  - split; [by vm_compute|]. split; [by vm_compute|].
    apply (process_single_file_engine_not_found demo_env demo_no_engine_file ["ocrmypdf"]
             None demo_state (snd p) (fst p) (last_run (snd p))).
    + apply pair_eta.
    + by vm_compute.
    + by vm_compute.
    + by vm_compute.
    + split; by vm_compute.
  - split; [by vm_compute|]. split; [by vm_compute|].
    apply (process_single_file_engine_not_found demo_env demo_both_errors_file ["ocrmypdf"]
             None demo_state (snd q) (fst q) (last_run (snd q))).
    + apply pair_eta.
    + by vm_compute.
    + by vm_compute.
    + by vm_compute.
    + left. by vm_compute.
Defined.

(** C1 as stated fails: with both [PriorOcrFoundError] and
    [TesseractNotFoundError] in the standard error, the advice is the one
    for a PDF that already has text. *)
Lemma engine_not_found_counterexample : ¬ engine_not_found_whatever_else.
Proof.
  intros H.
  pose (p := demo_run demo_both_errors_file).
  specialize (H demo_env demo_both_errors_file ["ocrmypdf"] None demo_state
                (snd p) (fst p) (last_run (snd p)) (pair_eta p)).
  assert (fst p = Ok (None, Some (ocr_failed_msg 1
            "PriorOcrFoundError: page already has text. TesseractNotFoundError"
            +:+ HINT_HAS_TEXT))) as Hrun by (by vm_compute).
  rewrite Hrun in H.
  assert (HINT_HAS_TEXT = HINT_NO_TESSERACT) as Hhint.
  { assert (children (snd p) = children demo_state ++ [last_run (snd p)]) as H1
      by (by vm_compute).
    assert (returncode (run_exit (last_run (snd p))) ≠ 0) as H2 by (by vm_compute).
    assert (str_in "TesseractNotFoundError" (child_stderr (run_exit (last_run (snd p)))) = true)
      as H3 by (by vm_compute).
    specialize (H H1 H2 H3).
    vm_compute in H. by injection H. }
  vm_compute in Hhint. discriminate.
Qed.

Lemma process_single_file_success_iff_witness :
  let p := demo_run demo_good_file in
  ∃ inp outp,
    run_argv (last_run (snd p)) = ["ocrmypdf"] ++ [inp; outp] ∧
    created (snd p) = created demo_state ++ [inp; outp] ∧
    (∀ d, fst p = Ok (Some d, None) ↔
          returncode (run_exit (last_run (snd p))) = 0 ∧
          exit_fs (run_exit (last_run (snd p))) !! outp = Some d ∧ (0 < length d)%nat) ∧
    (returncode (run_exit (last_run (snd p))) = 0 →
     exit_fs (run_exit (last_run (snd p))) !! outp = None
     ∨ exit_fs (run_exit (last_run (snd p))) !! outp = Some [] →
     fst p = Ok (None, Some MSG_NO_OUTPUT)).
Proof.
  intros p.
  apply (process_single_file_success_iff demo_env demo_good_file ["ocrmypdf"] None
           demo_state (snd p) (fst p) (last_run (snd p))).
  - apply pair_eta.
  - by vm_compute.
  - intros e He. vm_compute in He. discriminate.
Defined.

Lemma process_single_file_keeps_output_file_witness :
  let p := demo_moving_run demo_good_file in
  let inp := "/tmp/tmpa1b2c3d4_scan.pdf" in
  let outp := "/tmp/tmpe5f6g7h8_ocr.pdf" in
  fst p = Ok (Some (getvalue demo_good_file), None) ∧
  run_argv (last_run (snd p)) = ["ocrmypdf"; inp; outp] ∧
  created (snd p) = [inp; outp] ∧
  fs (snd p) !! outp = Some (getvalue demo_good_file) ∧
  ∃ e, last (logs (snd p)) = Some (WARNING, MSG_CLEANUP_FAILED e).
Proof.
  intros p inp outp.
  split; [by vm_compute|]. split; [by vm_compute|].
  destruct (process_single_file_keeps_output_file demo_moving_env demo_good_file ["ocrmypdf"]
              None demo_state (snd p) (fst p) (last_run (snd p)) inp outp
              (getvalue demo_good_file))
    as (_ & Hc & _ & Hfs & _ & Hlog).
  - apply pair_eta.
  - by vm_compute.
  - by vm_compute.
  - by vm_compute.
  - by vm_compute.
  - split; [exact Hc|]. split; [exact Hfs | exact Hlog].
Defined.

Lemma run_batch_single_failure_witness :
  let rs := returned (run_batch_outcomes demo_env demo_batch ["ocrmypdf"] demo_state) in
  ∃ results errors s',
    run_batch demo_env demo_batch ["ocrmypdf"] demo_state = (Ok (results, errors), s') ∧
    errors = [("b.pdf", Some (ocr_failed_msg 1 "boom"))] ∧
    results = zip_with (fun file res => (file, default [] (fst res)))
                (delete 1%nat demo_batch) (delete 1%nat rs) ∧
    length results = (length demo_batch - 1)%nat ∧
    overall_progress_values (ui s')
      = overall_progress_values (ui demo_state)
        ++ ((fun i => PyFloat (overall_fraction i (length demo_batch)))
              <$> seq 0 (length demo_batch)) ∧
    ∃ q, last (overall_progress_values (ui s')) = Some (PyFloat q) ∧ (q == 1)%Q.
Proof.
  intros rs. 
  assert (rs = [(Some (list_byte_of_string "page one"), None);
                (None, Some (ocr_failed_msg 1 "boom"));
                (Some (list_byte_of_string "page three"), None)]) as Hrs by (by vm_compute).
  apply (run_batch_single_failure demo_env demo_batch ["ocrmypdf"] demo_state rs 1
           (demo_file "b.pdf" "!boom") (ocr_failed_msg 1 "boom")).
  - by vm_compute.
  - reflexivity.
  - by rewrite Hrs.
  - intros i res Hi Hres. rewrite Hrs in Hres.
    destruct i as [|[|[|i]]].
    + inversion Hres. by eexists.
    + exfalso. apply Hi. reflexivity.
    + inversion Hres. by eexists.
    + inversion Hres.
Defined.

Lemma batch_args_from_first_file_witness :
  let p := on_click demo_env true demo_batch demo_options demo_state in
  (1 < length demo_batch)%nat ∧
  ∃ first rest,
    demo_batch = first :: rest ∧
    (∀ f, is_pdf_name demo_env (name f) = is_pdf_name demo_env (name first) →
          synthesize demo_env f demo_options = synthesize demo_env first demo_options) ∧
    (∃ runs, children (snd p) = children demo_state ++ runs ∧
             Forall (run_on (synthesize demo_env first demo_options)) runs) ∧
    (validate_config demo_env (current_config demo_options) = Ok [] →
       (∃ results errors, fst p = Ok (BatchDone results errors)) ∧
       (is_pdf_name demo_env (name first) = false →
          has_block ["--image-dpi"; pretty (image_dpi demo_options)]
            (synthesize demo_env first demo_options)) ∧
       (is_pdf_name demo_env (name first) = true →
          count_occ string_dec (synthesize demo_env first demo_options) "--image-dpi"
          = count_occ string_dec (free_text_values demo_options) "--image-dpi")).
Proof.
  intros p. split; [simpl; lia|].
  apply (batch_args_from_first_file demo_env demo_batch demo_options demo_state
           (snd p) (fst p)).
  - simpl. lia.
  - apply pair_eta.
Defined.

Lemma check_pdf_has_text_true_keeps_copy_witness :
  let p := check_pdf_has_text demo_env demo_text_pdf demo_state in
  fst p = Ok true ∧
  ∃ tmp, created (snd p) = created demo_state ++ [tmp] ∧
         fs demo_state !! tmp = None ∧
         fs (snd p) !! tmp = Some demo_text_pdf.
Proof.
  intros p. assert (fst p = Ok true) as Hp by (by vm_compute).
  split; [exact Hp|].
  apply (check_pdf_has_text_true_keeps_copy demo_env demo_text_pdf demo_state (snd p)).
  rewrite <- Hp. apply pair_eta.
Defined.

(** * Further properties *)

(** ** Validator *)

Lemma when_nil {A} (b : bool) (x : A) : when b [x] = [] ↔ b = false.
Proof. by destruct b. Qed.

(** X1: with a known number of processors the validator reports nothing
    exactly when the three values are in range. *)
Theorem validate_config_accepts_iff (E : Env) (n : Z) (config : gmap string Z) :
  cpu_count E = Some n →
  validate_config E config = Ok [] ↔
    72 ≤ config_get config "image_dpi" 300 ≤ 600 ∧
    1 ≤ config_get config "jobs" 1 ≤ n ∧
    1 ≤ config_get config "jpeg_quality" 75 ≤ 100.
Proof.
  intros Hc. rewrite (validate_config_Some E n config Hc). split.
  - intros [= H]. apply app_eq_nil in H as [H1 H]. apply app_eq_nil in H as [H2 H3].
    apply when_nil, orb_false_iff in H1 as [?%Z.ltb_ge ?%Z.ltb_ge].
    apply when_nil, orb_false_iff in H2 as [?%Z.ltb_ge ?%Z.ltb_ge].
    apply when_nil, orb_false_iff in H3 as [?%Z.ltb_ge ?%Z.ltb_ge]. lia.
  - intros (Hd & Hj & Hq).
    repeat match goal with
           | |- context [?a <? ?b] =>
               replace (a <? b) with false by (symmetry; apply Z.ltb_ge; lia)
           end.
    done.
Qed.

Lemma validate_config_accepts_iff_witness :
  cpu_count demo_env = Some 4 ∧
  (validate_config demo_env {["jobs" := 2]} = Ok [] ↔
     72 ≤ config_get {["jobs" := 2]} "image_dpi" 300 ≤ 600 ∧
     1 ≤ config_get {["jobs" := 2]} "jobs" 1 ≤ 4 ∧
     1 ≤ config_get {["jobs" := 2]} "jpeg_quality" 75 ≤ 100).
Proof.
  split; [reflexivity|].
  apply (validate_config_accepts_iff demo_env 4 {["jobs" := 2]}). reflexivity.
Defined.

(** X2: a missing key counts as its default: 300 for [image_dpi], 1 for
    [jobs], 75 for [jpeg_quality]. *)
Theorem validate_config_missing_keys (E : Env) (config : gmap string Z) :
  (config !! "image_dpi" = None →
     validate_config E config = validate_config E (<["image_dpi" := 300]> config)) ∧
  (config !! "jobs" = None →
     validate_config E config = validate_config E (<["jobs" := 1]> config)) ∧
  (config !! "jpeg_quality" = None →
     validate_config E config = validate_config E (<["jpeg_quality" := 75]> config)).
Proof.
  repeat split; intros H; unfold validate_config, config_get;
    rewrite ?lookup_insert_eq, ?lookup_insert_ne by done; by rewrite H.
Qed.

Lemma validate_config_missing_keys_witness :
  (∅ : gmap string Z) !! "image_dpi" = None ∧
  validate_config demo_env ∅ = validate_config demo_env (<["image_dpi" := 300]> ∅).
Proof.
  split; [reflexivity|].
  apply (proj1 (validate_config_missing_keys demo_env ∅)). reflexivity.
Defined.

(** X3: on a host where [os.cpu_count()] is [None] the thread slider goes
    from 1 to 4 with 4 selected, and the validator raises a [TypeError]
    for every thread count from 1 on, so for every value of the slider;
    below 1 it reports the thread rule with [None] as the bound. *)
Theorem validate_config_without_cpu_count (E : Env) (config : gmap string Z) :
  cpu_count E = None →
  jobs_slider_max E = 4 ∧ jobs_slider_value E = 4 ∧
  (1 ≤ config_get config "jobs" 1 → validate_config E config = Raise TYPE_ERROR) ∧
  (config_get config "jobs" 1 < 1 →
     ∃ errors, validate_config E config = Ok errors ∧ "线程数应在1-None之间" ∈ errors).
Proof.
  intros Hc. unfold jobs_slider_max, jobs_slider_value, cpu_count_or_4. rewrite Hc.
  split; [done|]. split; [done|].
  unfold validate_config, gt_cpu_count, MSG_JOBS, str_cpu_count. rewrite Hc. split.
  - intros Hj. by replace (config_get config "jobs" 1 <? 1) with false
      by (symmetry; apply Z.ltb_ge; lia).
  - intros Hj. replace (config_get config "jobs" 1 <? 1) with true
      by (symmetry; apply Z.ltb_lt; lia).
    eexists. split; [reflexivity|].
    repeat match goal with |- context [if ?b then _ else _] => destruct b end;
      rewrite ?elem_of_app, ?list_elem_of_singleton; auto.
Qed.

Lemma validate_config_without_cpu_count_witness :
  cpu_count demo_env_no_cpu = None ∧
  validate_config demo_env_no_cpu {["jobs" := 4]} = Raise TYPE_ERROR.
Proof.
  split; [reflexivity|].
  apply (validate_config_without_cpu_count demo_env_no_cpu {["jobs" := 4]} eq_refl).
  by vm_compute.
Defined.

(** X4: on a host with [n > 0] processors the thread slider goes from 1
    to [n], its default lies between the bounds, and no value of the
    slider violates the thread rule. *)
Theorem jobs_slider_within_rule (E : Env) (n : Z) (config : gmap string Z) :
  cpu_count E = Some n → 0 < n →
  jobs_slider_max E = n ∧
  jobs_slider_min ≤ jobs_slider_value E ≤ jobs_slider_max E ∧
  (jobs_slider_min ≤ config_get config "jobs" 1 ≤ jobs_slider_max E →
     ∃ errors, validate_config E config = Ok errors ∧ MSG_JOBS E ∉ errors).
Proof.
  intros Hc Hn. unfold jobs_slider_max, jobs_slider_value, jobs_slider_min, cpu_count_or_4.
  rewrite Hc. replace (n =? 0) with false by (symmetry; apply Z.eqb_neq; lia).
  split; [done|]. split; [lia|]. intros Hj.
  rewrite (validate_config_Some E n config Hc). eexists. split; [reflexivity|].
  rewrite !elem_of_app, !elem_of_when, !orb_true_iff, !Z.ltb_lt.
  pose proof (MSG_DPI_JOBS E). pose proof (MSG_JOBS_JPEG E).
  intros [[_ ?]|[[[?|?] _]|[_ ?]]]; (done || lia).
Qed.

Lemma jobs_slider_within_rule_witness :
  cpu_count demo_env = Some 4 ∧ 0 < 4 ∧
  jobs_slider_max demo_env = 4 ∧
  jobs_slider_min ≤ jobs_slider_value demo_env ≤ jobs_slider_max demo_env.
Proof.
  split; [reflexivity|]. split; [lia|].
  destruct (jobs_slider_within_rule demo_env 4 ∅ eq_refl) as (H1 & H2 & _); [lia|].
  split; [exact H1 | exact H2].
Defined.


(** ** Argument synthesis *)

(** X5: with optimisation level 0 the argument list does not depend on the
    JPEG and PNG quality values at all. *)
Theorem synthesize_level0_ignores_quality (E : Env) (f : UploadedFile) (o : Options)
    (jq pq : Z) :
  optimize o = O0 →
  synthesize E f (set_quality jq pq o) = synthesize E f o.
Proof.
  intros Ho. rewrite !synthesize_linear. cbn [set_quality mode language pages image_dpi
    rotate_pages deskew clean clean_final output_type optimize jpeg_quality png_quality
    title author subject keywords jobs]. by rewrite Ho.
Qed.

Lemma synthesize_level0_ignores_quality_witness :
  optimize demo_options_level0 = O0 ∧
  synthesize demo_env demo_good_file (set_quality 1 100 demo_options_level0)
  = synthesize demo_env demo_good_file demo_options_level0.
Proof.
  split; [reflexivity|].
  apply (synthesize_level0_ignores_quality demo_env demo_good_file demo_options_level0).
  reflexivity.
Defined.

(** X6: [--jobs] and the thread count are the last two arguments when
    [jobs] is greater than 1; for any smaller value, 0 and negative
    numbers included, the list is the one of [jobs = 1], without them. *)
Theorem synthesize_jobs (E : Env) (f : UploadedFile) (o : Options) :
  (1 < jobs o → ∃ pre, synthesize E f o = pre ++ ["--jobs"; pretty (jobs o)]) ∧
  (jobs o ≤ 1 → synthesize E f o = synthesize E f (set_jobs 1 o)).
Proof.
  split; intros Hj; rewrite !synthesize_linear.
  - replace (1 <? jobs o) with true by (symmetry; apply Z.ltb_lt; lia).
    by eexists.
  - cbn [set_jobs mode language pages image_dpi rotate_pages deskew clean clean_final
         output_type optimize jpeg_quality png_quality title author subject keywords jobs].
    by replace (1 <? jobs o) with false by (symmetry; apply Z.ltb_ge; lia).
Qed.

Lemma synthesize_jobs_witness :
  (1 < jobs demo_options ∧
   ∃ pre, synthesize demo_env demo_good_file demo_options = pre ++ ["--jobs"; "4"]) ∧
  (jobs (set_jobs (-3) demo_options) ≤ 1 ∧
   synthesize demo_env demo_good_file (set_jobs (-3) demo_options)
   = synthesize demo_env demo_good_file (set_jobs 1 (set_jobs (-3) demo_options))).
Proof.
  split; split.
  - by vm_compute.
  - apply (proj1 (synthesize_jobs demo_env demo_good_file demo_options)). by vm_compute.
  - by vm_compute.
  - apply (proj2 (synthesize_jobs demo_env demo_good_file (set_jobs (-3) demo_options))).
    by vm_compute.
Defined.

Lemma dec_eq (a : string) : (if string_dec a a then 1 else 0)%nat = 1%nat.
Proof. by destruct (string_dec a a). Qed.

(** X7: the command name comes first, and the flag of a mode is emitted
    exactly once when that mode is selected and is not [normal], never
    otherwise: there is no [--normal], and no flag of a mode that is not
    selected (beyond what the user typed as a free-text value). *)
Theorem synthesize_mode_flag (E : Env) (f : UploadedFile) (o : Options) (m : Mode) :
  (∃ rest, synthesize E f o = "ocrmypdf" :: rest) ∧
  count_occ string_dec (synthesize E f o) ("--" +:+ mode_str m)
  = ((if bool_decide (mode o = m ∧ m ≠ ModeNormal) then 1 else 0)
     + count_occ string_dec (free_text_values o) ("--" +:+ mode_str m))%nat.
Proof.
  rewrite synthesize_linear. split.
  { rewrite <- !app_assoc. by eexists. }
  unfold free_text_values.
  assert (output_type_str (output_type o) ≠ "--" +:+ mode_str m) as Hot
    by (by destruct (output_type o), m).
  assert (optimize_str (optimize o) ≠ "--" +:+ mode_str m) as Hop
    by (by destruct (optimize o), m).
  assert (∀ z : Z, pretty z ≠ "--" +:+ mode_str m) as Hz
    by (intros z; apply pretty_Z_no_flag).
  assert ("--" +:+ mode_str m ≠ "") as Hne by done.
  rewrite !count_occ_app, !count_when, !count_cons.
  rewrite (dec_ne _ _ Hot), (dec_ne _ _ Hop).
  rewrite (dec_ne _ _ (Hz (image_dpi o))), (dec_ne _ _ (Hz (jobs o))),
    (dec_ne _ _ (Hz (jpeg_quality o))), (dec_ne _ _ (Hz (png_quality o))).
  destruct m, (mode o); cbv [mode_str String.append] in *;
    repeat match goal with
    | |- context [if string_dec (String ?c ?a) (String ?c ?a) then _ else _] =>
        rewrite (dec_eq (String c a))
    | |- context [if string_dec (String ?c ?a) ?b then _ else _] =>
        rewrite (dec_ne (String c a) b) by discriminate
    end;
    cbn [count_occ Nat.add negb String.eqb Ascii.eqb Bool.eqb];
    rewrite !count_truthy by done; rewrite !if_same;
    case_bool_decide; try (exfalso; naive_solver);
    repeat match goal with
    | |- context [if string_dec ?a ?b then 1%nat else 0%nat] =>
        generalize (if string_dec a b then 1%nat else 0%nat); intro
    end; clear; lia.
Qed.

(** ** Presets *)

(** X8: for every entry of the preset select box the sidebar finds its
    defaults without [KeyError] or [ValueError]: each of the four select
    boxes starts at the value the preset gives (or at its own default when
    the preset, or the custom entry, gives none). *)
Theorem sidebar_defaults_of_presets (preset_choice : string) :
  preset_choice ∈ preset_options →
  ∃ preset_config d,
    preset_config_of preset_choice = Ok preset_config ∧
    sidebar_defaults preset_choice = Ok d ∧
    PyStr <$> mode_options !! mode_index d
      = Some (preset_get preset_config "mode" (PyStr "normal")) ∧
    PyStr <$> lang_options !! lang_index d
      = Some (preset_get preset_config "language" (PyStr "chi_sim")) ∧
    PyStr <$> output_options !! output_index d
      = Some (preset_get preset_config "output_type" (PyStr "pdfa")) ∧
    PyStr <$> optimize_options !! optimize_index d
      = Some (preset_get preset_config "optimize" (PyStr "1")).
Proof.
  intros Hin.
  assert (forallb defaults_match preset_options = true) as Hall by (by vm_compute).
  rewrite forallb_forall in Hall. apply list_elem_of_In, Hall in Hin.
  unfold defaults_match, shows in Hin.
  destruct (preset_config_of preset_choice) as [cfg|]; [|done].
  destruct (sidebar_defaults preset_choice) as [d|]; [|done].
  exists cfg, d. split; [done|]. split; [done|].
  repeat (apply andb_true_iff in Hin as [Hin ?%bool_decide_eq_true]).
  apply bool_decide_eq_true in Hin. done.
Qed.

Lemma sidebar_defaults_of_presets_witness :
  "图书扫描" ∈ preset_options ∧
  ∃ d, sidebar_defaults "图书扫描" = Ok d ∧
       mode_index d = 0%nat ∧ optimize_index d = 3%nat ∧ rotate_pages_value d = true.
Proof.
  assert ("图书扫描" ∈ preset_options) as Hin.
  { apply list_elem_of_In. simpl. auto. }
  split; [exact Hin|].
  destruct (sidebar_defaults_of_presets "图书扫描" Hin) as (cfg & d & _ & Hd & _).
  exists d. split; [exact Hd|].
  assert (sidebar_defaults "图书扫描"
          = Ok {| mode_index := 0; lang_index := 1; output_index := 0; optimize_index := 3;
                  rotate_pages_value := true; deskew_value := true; clean_value := true;
                  clean_final_value := false |}) as Hc by (vm_compute; reflexivity).
  rewrite Hc in Hd. injection Hd as <-. repeat split; reflexivity.
Defined.

(** ** Heuristic text detector, further *)

(** X9: when the detector answers [False] without logging anything, the
    file system is exactly as before the call: the one temporary copy it
    created has been removed. *)
Theorem check_pdf_has_text_false_restores (E : Env) (file_data : bytes) (s s' : State) :
  check_pdf_has_text E file_data s = (Ok false, s') →
  logs s' = logs s →
  fs s' = fs s ∧ ∃ tmp, created s' = created s ++ [tmp] ∧ fs s !! tmp = None.
Proof.
  unfold check_pdf_has_text. unfold_py. intros H Hlogs.
  exec; fields;
    try (symmetry in Hlogs; by apply app_singleton_neq in Hlogs);
    match goal with
    | Hm : mkstemp_inner _ _ _ = Some (?p, _) |- _ =>
        apply mkstemp_inner_fresh in Hm as [Hfresh _]; split; [|by exists p];
        by rewrite !delete_insert_eq, delete_id
    end.
Qed.

Lemma check_pdf_has_text_false_restores_witness :
  let p := check_pdf_has_text (demo_env_pages demo_late_text) demo_text_pdf demo_state in
  fst p = Ok false ∧ logs (snd p) = logs demo_state ∧
  created (snd p) = ["/tmp/tmpa1b2c3d4.pdf"] ∧ fs (snd p) = fs demo_state.
Proof.
  intros p. assert (fst p = Ok false) as Hp by (by vm_compute).
  assert (logs (snd p) = logs demo_state) as Hl by (by vm_compute).
  split; [exact Hp|]. split; [exact Hl|]. split; [by vm_compute|].
  apply (check_pdf_has_text_false_restores (demo_env_pages demo_late_text)
           demo_text_pdf demo_state (snd p)); [|exact Hl].
  rewrite <- Hp. apply pair_eta.
Defined.

(** X10: when the copy was written and [pikepdf] cannot open the document,
    the detector answers [False], logs the exception as a warning, and
    leaves the copy, a file that did not exist before, on the file
    system: the [except] clause does not remove it. *)
Theorem check_pdf_has_text_unparseable (E : Env) (file_data : bytes) (e tmp : string)
    (s s1 : State) :
  stage_copy file_data s = (Ok tmp, s1) →
  pikepdf_open E file_data = Raise e →
  ∃ s', check_pdf_has_text E file_data s = (Ok false, s') ∧
        fs s !! tmp = None ∧
        fs s' !! tmp = Some file_data ∧
        last (logs s') = Some (WARNING, MSG_DETECT_FAILED e).
Proof.
  unfold check_pdf_has_text, stage_copy, MSG_DETECT_FAILED. unfold_py. intros H Hopen.
  exec; fields; try congruence;
    eexists; (split; [reflexivity|]); fields; rewrite ?lookup_insert_eq, ?last_snoc;
    (split; [by eapply mkstemp_inner_fresh|]);
    split; congruence.
Qed.

Lemma check_pdf_has_text_unparseable_witness :
  let p := check_pdf_has_text demo_env [] demo_state in
  fst p = Ok false ∧
  fs (snd p) !! "/tmp/tmpa1b2c3d4.pdf" = Some [] ∧
  last (logs (snd p))
  = Some (WARNING, MSG_DETECT_FAILED "PdfError: unable to find trailer dictionary").
Proof.
  intros p.
  destruct (check_pdf_has_text_unparseable demo_env []
              "PdfError: unable to find trailer dictionary" "/tmp/tmpa1b2c3d4.pdf"
              demo_state (snd (stage_copy [] demo_state)))
    as (s' & Hrun & _ & Hfs & Hlog).
  - by vm_compute.
  - reflexivity.
  - subst p. rewrite Hrun. cbn [fst snd]. split; [reflexivity|]. split; [exact Hfs | exact Hlog].
Defined.

(** ** Invocation runner, further *)

(** Follows every branch of the run, reading the decisions of the
    operating system off what is known of [faults]. *)
Ltac exec_faults :=
  repeat (fields; rewrite ?lookup_insert_eq in *;
          repeat match goal with
                 | H : faults ?s = _ |- context [faults ?s] => rewrite H
                 end;
          case_match; simplify_eq).

Ltac fault_clash :=
  try match goal with
      | H1 : faults ?s = [], H2 : faults ?s = _ :: _ |- _ =>
          rewrite H1 in H2; discriminate
      end.

(** What the [try] statement with its [except] clause uses up and writes:
    it consumes decisions of the operating system from the front, logs no
    warning, and calls the progress callback with the first [n] of its
    three messages: all three when the child exited with 0, two when it
    exited with another code. *)
Lemma process_attempt_trace (E : Env) (file : UploadedFile) (args : list string)
    (progress_callback : Callback) (s0 : State) :
  let s := set_locals None None s0 in
  ∃ res s1,
    try_except (process_try E file args progress_callback) process_except s = (Ok res, s1) ∧
    (∃ used, faults s0 = used ++ faults s1) ∧
    (∃ l, logs s1 = logs s0 ++ l ∧ Forall (fun e => fst e ≠ WARNING) l) ∧
    ∃ n, ui s1 = ui s0 ++ callback_events progress_callback (take n PROGRESS_CALLS) ∧
         ((children s1 = children s0 ∧ (n ≤ 2)%nat)
          ∨ ∃ run, children s1 = children s0 ++ [run] ∧
                   n = if returncode (run_exit run) =? 0 then 3%nat else 2%nat).
Proof.
  intros s. subst s. unfold process_try, process_except. unfold_py.
  exec_faults.
  all: fault_clash.
  all: eexists _, _; (split; [reflexivity|]); fields; simplify_eq.
  all: fault_clash.
  all: split;
    [ try match goal with H : faults ?s = _ |- context [faults ?s = _] => rewrite H end;
      first [ by exists [] | by eexists [_] | by eexists [_; _] | by eexists [_; _; _]
            | by eexists [_; _; _; _] | by eexists [_; _; _; _; _]
            | by eexists [_; _; _; _; _; _] ] |].
  all: split;
    [ rewrite <- ?app_assoc;
      first [ by (exists []; rewrite app_nil_r; split; [reflexivity | apply Forall_nil_2])
            | eexists; (split; [reflexivity|]);
              rewrite ?Forall_app, ?Forall_singleton; repeat split; cbn [fst]; discriminate ] |].
  all: unfold callback_events, PROGRESS_CALLS.
  all: first
    [ by (exists 0%nat; split;
          [ cbn; by rewrite ?app_nil_r | left; split; [reflexivity | lia] ])
    | by (exists 1%nat; split;
          [ cbn; by rewrite <- ?app_assoc, ?app_nil_r | left; split; [reflexivity | lia] ])
    | by (exists 2%nat; split;
          [ cbn; by rewrite <- ?app_assoc, ?app_nil_r
          | right; eexists; split; [reflexivity|]; cbn [run_exit];
            match goal with H : (_ =? 0) = false |- _ => by rewrite H end ])
    | by (exists 3%nat; split;
          [ cbn; by rewrite <- ?app_assoc, ?app_nil_r
          | right; eexists; split; [reflexivity|]; cbn [run_exit];
            match goal with H : (_ =? 0) = true |- _ => by rewrite H end ])
    | by (exists 0%nat; destruct progress_callback;
          (split; [ cbn; by rewrite ?app_nil_r | left; split; [reflexivity | lia] ])) ].
Qed.

(** The [finally] clause when the operating system refuses nothing and
    the input copy is there: both files are removed and nothing is
    logged. *)
Lemma process_finally_quiet (s : State) (inp outp : string) :
  faults s = [] →
  local_input_file s = Some inp →
  local_output_file s = Some outp →
  is_Some (fs s !! inp) →
  ∃ s', process_finally s = (Ok (), s') ∧
        fs s' = delete outp (delete inp (fs s)) ∧ logs s' = logs s.
Proof.
  intros Hf Hi Ho [d Hd]. unfold process_finally. unfold_py.
  rewrite Hi. exec_faults.
  all: fields; simplify_eq.
  all: fault_clash.
  all: try match goal with
           | H : bool_decide (is_Some ?x) = true, H' : ?x = None |- _ =>
               rewrite H' in H; apply bool_decide_eq_true in H; by destruct H
           end.
  all: eexists; (split; [reflexivity|]); fields.
  all: split; [|done].
  all: try done.
  all: match goal with
       | H : bool_decide _ = false |- _ =>
           apply bool_decide_eq_false, eq_None_not_Some in H; by rewrite (delete_id _ _ H)
       end.
Qed.

(** The runner with everything the two stages say about it. *)
Lemma process_single_file_run (E : Env) (file : UploadedFile) (args : list string)
    (progress_callback : Callback) (s s' : State) (r : outcome Result) (run : ChildRun)
    (inp outp : string) :
  process_single_file E file args progress_callback s = (r, s') →
  children s' = children s ++ [run] →
  run_argv run = args ++ [inp; outp] →
  ∃ res s1,
    r = Ok res ∧
    process_finally s1 = (Ok (), s') ∧
    local_input_file s1 = Some inp ∧ local_output_file s1 = Some outp ∧
    fs s1 = exit_fs (run_exit run) ∧
    (∃ used, faults s = used ++ faults s1) ∧
    (∃ l, logs s1 = logs s ++ l ∧ Forall (fun e => fst e ≠ WARNING) l) ∧
    ui s' = ui s ++ callback_events progress_callback
                      (take (if returncode (run_exit run) =? 0 then 3 else 2) PROGRESS_CALLS).
Proof.
  intros Hp Hch Hargv.
  destruct (process_single_file_stages E file args progress_callback s)
    as (res & s1 & s'' & Ha & Hf & Hp').
  rewrite Hp in Hp'. injection Hp' as -> <-.
  destruct (process_attempt_spec E file args progress_callback s)
    as (res' & s1' & Ha' & _ & _ & Hcases).
  cbv zeta in Ha'. rewrite Ha in Ha'. injection Ha' as <- <-.
  destruct (process_attempt_trace E file args progress_callback s)
    as (res' & s1' & Ha' & Hfaults & Hlogs & n & Hui & Hn).
  cbv zeta in Ha'. rewrite Ha in Ha'. injection Ha' as <- <-.
  destruct (process_finally_spec s1) as (s'' & Hf' & _ & Hch' & Hui' & _).
  rewrite Hf in Hf'. injection Hf' as <-.
  rewrite Hch' in Hch.
  destruct Hcases as [[Hn' _]|(inp' & outp' & before & Hi & Ho & _ & _ & _ & _ & _
                               & Hch1 & Hfs & _)].
  { rewrite Hn' in Hch. by apply app_singleton_neq in Hch. }
  cbv zeta in *. rewrite Hch1 in Hch. apply app_inv_head in Hch. injection Hch as <-.
  cbn [run_exit run_argv] in *.
  apply app_inv_head in Hargv. injection Hargv as <- <-.
  exists res, s1. do 7 (split; [done|]).
  rewrite Hui', Hui.
  destruct Hn as [[Hn _]|(run & Hrun & ->)].
  { rewrite Hn in Hch1. by apply app_singleton_neq in Hch1. }
  rewrite Hch1 in Hrun. apply app_inv_head in Hrun. by injection Hrun as <-.
Qed.

(** X11: when the operating system refuses nothing during the call and
    the child left its input copy in place, the [finally] clause removes
    both temporary files: the file system at return is the one the child
    left without the two files, and no warning is logged. *)
Theorem process_single_file_removes_both (E : Env) (file : UploadedFile)
    (args : list string) (progress_callback : Callback) (s s' : State)
    (r : outcome Result) (run : ChildRun) (inp outp : string) :
  faults s = [] →
  process_single_file E file args progress_callback s = (r, s') →
  children s' = children s ++ [run] →
  run_argv run = args ++ [inp; outp] →
  is_Some (exit_fs (run_exit run) !! inp) →
  fs s' = delete outp (delete inp (exit_fs (run_exit run))) ∧
  fs s' !! inp = None ∧ fs s' !! outp = None ∧
  (∀ m, (WARNING, m) ∈ logs s' → (WARNING, m) ∈ logs s).
Proof.
  intros Hfaults Hp Hch Hargv Hinp.
  destruct (process_single_file_run E file args progress_callback s s' r run inp outp
              Hp Hch Hargv)
    as (res & s1 & -> & Hf & Hi & Ho & Hfs & [used Hused] & (l & Hlogs & Hl) & _).
  rewrite Hfaults in Hused. symmetry in Hused. apply app_eq_nil in Hused as [_ Hf1].
  destruct (process_finally_quiet s1 inp outp Hf1 Hi Ho) as (s'' & Hf' & Hfs' & Hlogs').
  { by rewrite Hfs. }
  rewrite Hf in Hf'. injection Hf' as <-.
  rewrite Hfs', Hfs. split; [done|].
  split.
  { destruct (decide (inp = outp)) as [->|Hne]; [by rewrite lookup_delete_eq|].
    by rewrite lookup_delete_ne, lookup_delete_eq. }
  split; [by rewrite lookup_delete_eq|].
  intros m. rewrite Hlogs', Hlogs, elem_of_app. intros [Hm|Hm]; [done|].
  rewrite Forall_forall in Hl. by destruct (Hl _ Hm).
Qed.

Lemma process_single_file_removes_both_witness :
  let p := demo_run demo_good_file in
  faults demo_state = [] ∧
  fst p = Ok (Some (getvalue demo_good_file), None) ∧
  created (snd p) = ["/tmp/tmpa1b2c3d4_scan.pdf"; "/tmp/tmpe5f6g7h8_ocr.pdf"] ∧
  fs (snd p) !! "/tmp/tmpa1b2c3d4_scan.pdf" = None ∧
  fs (snd p) !! "/tmp/tmpe5f6g7h8_ocr.pdf" = None.
Proof.
  intros p. split; [reflexivity|]. split; [by vm_compute|]. split; [by vm_compute|].
  destruct (process_single_file_removes_both demo_env demo_good_file ["ocrmypdf"] None
              demo_state (snd p) (fst p) (last_run (snd p))
              "/tmp/tmpa1b2c3d4_scan.pdf" "/tmp/tmpe5f6g7h8_ocr.pdf")
    as (_ & Hi & Ho & _).
  - reflexivity.
  - apply pair_eta.
  - by vm_compute.
  - by vm_compute.
  - exists (getvalue demo_good_file). by vm_compute.
  - split; [exact Hi | exact Ho].
Defined.

(** X12: when the operating system refuses the first [os.unlink] of the
    [finally] clause, the clause logs the warning and is over: nothing is
    removed, the output file included, and the decisions left for later
    operations are untouched. *)
Theorem process_finally_first_unlink_refused (s : State) (p e : string)
    (rest : list (option string)) :
  local_input_file s = Some p →
  faults s = Some e :: rest →
  ∃ s', process_finally s = (Ok (), s') ∧
        fs s' = fs s ∧ faults s' = rest ∧
        logs s' = logs s ++ [(WARNING, MSG_CLEANUP_FAILED e)].
Proof.
  intros Hi Hf. unfold process_finally. unfold_py. rewrite Hi, Hf.
  by eexists.
Qed.

Lemma process_finally_first_unlink_refused_witness :
  let p := process_finally demo_refusing_state in
  fst p = Ok () ∧
  fs (snd p) = fs demo_refusing_state ∧
  is_Some (fs (snd p) !! "/tmp/tmpe5f6g7h8_ocr.pdf") ∧
  logs (snd p)
  = [(WARNING, MSG_CLEANUP_FAILED
                 "[Errno 13] Permission denied: '/tmp/tmpa1b2c3d4_scan.pdf'")].
Proof.
  intros p.
  destruct (process_finally_first_unlink_refused demo_refusing_state
              "/tmp/tmpa1b2c3d4_scan.pdf"
              "[Errno 13] Permission denied: '/tmp/tmpa1b2c3d4_scan.pdf'" [])
    as (s' & Hrun & Hfs & _ & Hlog).
  - reflexivity.
  - reflexivity.
  - subst p. rewrite Hrun. cbn [fst snd]. split; [reflexivity|]. split; [exact Hfs|].
    split; [|exact Hlog]. rewrite Hfs. eexists. by vm_compute.
Defined.

(** X13: when the operating system refuses the creation of the input
    copy, the first operation of a run, the call returns the message of
    the exception; no temporary file was created, no child ran, the
    callback was not called, and the [finally] clause, with neither local
    bound, does nothing. *)
Theorem process_single_file_first_step_refused (E : Env) (file : UploadedFile)
    (args : list string) (progress_callback : Callback) (s : State) (e : string)
    (rest : list (option string)) :
  faults s = Some e :: rest →
  ∃ s', process_single_file E file args progress_callback s
        = (Ok (None, Some (MSG_EXCEPTION e)), s') ∧
        fs s' = fs s ∧ created s' = created s ∧ children s' = children s ∧
        ui s' = ui s ∧
        logs s' = logs s ++ [(ERROR, "处理异常: " +:+ MSG_EXCEPTION e)].
Proof.
  intros Hf. unfold process_single_file, process_try, process_except, process_finally.
  unfold_py. fields. rewrite Hf. fields.
  by eexists.
Qed.

Lemma process_single_file_first_step_refused_witness :
  let p := process_single_file demo_env demo_good_file ["ocrmypdf"] None
             demo_read_only_state in
  fst p = Ok (None, Some (MSG_EXCEPTION
                            "[Errno 13] Permission denied: '/tmp/tmpa1b2c3d4_scan.pdf'")) ∧
  fs (snd p) = ∅ ∧ created (snd p) = [] ∧ children (snd p) = [].
Proof.
  intros p.
  destruct (process_single_file_first_step_refused demo_env demo_good_file ["ocrmypdf"] None
              demo_read_only_state
              "[Errno 13] Permission denied: '/tmp/tmpa1b2c3d4_scan.pdf'" [])
    as (s' & Hrun & Hfs & Hc & Hch & _).
  - reflexivity.
  - subst p. rewrite Hrun. cbn [fst snd]. split; [reflexivity|].
    split; [exact Hfs|]. split; [exact Hc | exact Hch].
Defined.

(** The [try] statement when the operating system lets the two files be
    created and the copy be written, and refuses to start the child. *)
Lemma process_attempt_spawn_refused (E : Env) (file : UploadedFile) (args : list string)
    (progress_callback : Callback) (s0 : State) (e : string) :
  faults s0 = [None; None; None; Some e] →
  let s := set_locals None None s0 in
  ∃ res s1,
    try_except (process_try E file args progress_callback) process_except s = (Ok res, s1) ∧
    children s1 = children s0 ∧
    ∀ inp outp, bound_files s1 = [inp; outp] →
      res = (None, Some (MSG_EXCEPTION e)) ∧
      faults s1 = [] ∧
      fs s1 = <[outp:=[]]> (<[inp:=getvalue file]> (<[inp:=[]]> (fs s0))) ∧
      fs s0 !! inp = None ∧ fs s0 !! outp = None ∧ inp ≠ outp ∧
      ui s1 = ui s0 ++ callback_events progress_callback (take 1 PROGRESS_CALLS).
Proof.
  intros Hf s. subst s. unfold process_try, process_except. unfold_py.
  exec_faults.
  all: eexists _, _; (split; [reflexivity|]); fields; simplify_eq.
  all: (split; [reflexivity|]).
  all: unfold bound_files; fields; cbn [option_list app].
  all: intros inp outp [= <- <-] || (intros inp outp; discriminate).
  all: fresh_facts.
  all: repeat (split; [done|]).
  all: unfold callback_events, PROGRESS_CALLS; cbn [take map concat fst snd];
      by rewrite ?app_nil_r.
Qed.

Lemma temp_files_removed (m : gmap string bytes) (a b : string) (d : bytes) :
  m !! a = None → m !! b = None → a ≠ b →
  delete b (delete a (<[b:=[]]> (<[a:=d]> (<[a:=[]]> m)))) = m.
Proof.
  intros Ha Hb Hab. apply map_eq. intros k.
  destruct (decide (k = b)) as [->|]; [by simplify_map_eq|].
  destruct (decide (k = a)) as [->|]; by simplify_map_eq.
Qed.

(** X14: when the two temporary files were created and the child cannot
    be started (the program is not installed, say) while every other
    operation goes through, the call returns the message of that
    exception, no child ran, the callback got its first message only, and
    the [finally] clause removed both files: the file system is as
    before the call. *)
Theorem process_single_file_spawn_refused (E : Env) (file : UploadedFile)
    (args : list string) (progress_callback : Callback) (s s' : State)
    (r : outcome Result) (inp outp e : string) :
  faults s = [None; None; None; Some e] →
  process_single_file E file args progress_callback s = (r, s') →
  created s' = created s ++ [inp; outp] →
  r = Ok (None, Some (MSG_EXCEPTION e)) ∧
  children s' = children s ∧
  fs s' = fs s ∧
  ui s' = ui s ++ callback_events progress_callback (take 1 PROGRESS_CALLS).
Proof.
  intros Hfaults Hp Hcreated.
  destruct (process_single_file_stages E file args progress_callback s)
    as (res & s1 & s'' & Ha & Hf & Hp').
  rewrite Hp in Hp'. injection Hp' as -> <-.
  destruct (process_attempt_spec E file args progress_callback s)
    as (res' & s1' & Ha' & Hc & _ & _).
  cbv zeta in Ha'. rewrite Ha in Ha'. injection Ha' as <- <-.
  destruct (process_attempt_spawn_refused E file args progress_callback s e Hfaults)
    as (res' & s1' & Ha' & Hch & Hrun).
  cbv zeta in Ha'. rewrite Ha in Ha'. injection Ha' as <- <-.
  destruct (process_finally_spec s1) as (s'' & Hf' & Hc' & Hch' & Hui' & _).
  rewrite Hf in Hf'. injection Hf' as <-.
  rewrite Hc', Hc in Hcreated. apply app_inv_head in Hcreated.
  destruct (Hrun inp outp Hcreated) as (-> & Hf1 & Hfs & Hi & Ho & Hne & Hui).
  unfold bound_files in Hcreated.
  destruct (local_input_file s1) as [inp'|] eqn:Hli,
           (local_output_file s1) as [outp'|] eqn:Hlo; try done.
  injection Hcreated as -> ->.
  destruct (process_finally_quiet s1 inp outp Hf1 Hli Hlo) as (s'' & Hf' & Hfs' & _).
  { rewrite Hfs. rewrite lookup_insert_ne by done. rewrite lookup_insert_eq. by eexists. }
  rewrite Hf in Hf'. injection Hf' as <-.
  split; [done|]. split; [congruence|]. split; [|congruence].
  rewrite Hfs', Hfs. by apply temp_files_removed.
Qed.

Lemma process_single_file_spawn_refused_witness :
  let p := process_single_file demo_env demo_good_file ["ocrmypdf"] None
             demo_no_program_state in
  fst p = Ok (None, Some (MSG_EXCEPTION "[Errno 2] No such file or directory: 'ocrmypdf'")) ∧
  created (snd p) = ["/tmp/tmpa1b2c3d4_scan.pdf"; "/tmp/tmpe5f6g7h8_ocr.pdf"] ∧
  children (snd p) = [] ∧
  fs (snd p) = ∅.
Proof.
  intros p.
  assert (created (snd p) = ["/tmp/tmpa1b2c3d4_scan.pdf"; "/tmp/tmpe5f6g7h8_ocr.pdf"])
    as Hc by (by vm_compute).
  destruct (process_single_file_spawn_refused demo_env demo_good_file ["ocrmypdf"] None
              demo_no_program_state (snd p) (fst p)
              "/tmp/tmpa1b2c3d4_scan.pdf" "/tmp/tmpe5f6g7h8_ocr.pdf"
              "[Errno 2] No such file or directory: 'ocrmypdf'")
    as (Hr & Hch & Hfs & _).
  - reflexivity.
  - apply pair_eta.
  - exact Hc.
  - split; [exact Hr|]. split; [exact Hc|]. split; [exact Hch | exact Hfs].
Defined.

(** X15: when the child exits non-zero and its standard error contains
    none of [PriorOcrFoundError], [page already has text] and
    [TesseractNotFoundError], the advice for a missing language pack is
    appended exactly when the standard error in lower case contains both
    [language] and [not found]; otherwise the failure message is returned
    as it is. *)
Theorem process_single_file_language_hint (E : Env) (file : UploadedFile)
    (args : list string) (progress_callback : Callback) (s s' : State)
    (r : outcome Result) (run : ChildRun) :
  process_single_file E file args progress_callback s = (r, s') →
  children s' = children s ++ [run] →
  returncode (run_exit run) ≠ 0 →
  str_in "PriorOcrFoundError" (child_stderr (run_exit run)) = false →
  str_in "page already has text" (child_stderr (run_exit run)) = false →
  str_in "TesseractNotFoundError" (child_stderr (run_exit run)) = false →
  r = Ok (None,
          Some (if str_in "language" (str_lower E (child_stderr (run_exit run)))
                   && str_in "not found" (str_lower E (child_stderr (run_exit run)))
                then ocr_failed_msg (returncode (run_exit run)) (child_stderr (run_exit run))
                       +:+ HINT_NO_LANGUAGE
                else ocr_failed_msg (returncode (run_exit run))
                       (child_stderr (run_exit run)))).
Proof.
  intros Hp Hch Hrc Hp1 Hp2 Ht.
  destruct (process_single_file_spec E file args progress_callback s)
    as (res & s'' & Hp' & _ & Hcases).
  rewrite Hp in Hp'. injection Hp' as -> <-.
  destruct Hcases as [[Hn _]|(inp & outp & before & _ & _ & _ & _ & _ & _ & Hch' & Hres)].
  { rewrite Hn in Hch. by apply app_singleton_neq in Hch. }
  cbv zeta in *. rewrite Hch' in Hch. apply app_inv_head in Hch. injection Hch as <-.
  cbn [run_exit] in *.
  destruct Hres as [[_ ->]|[[? _]|[? _]]]; [|done..].
  unfold add_hint. by rewrite Hp1, Hp2, Ht.
Qed.

Lemma process_single_file_language_hint_witness :
  let p := demo_run demo_no_language_file in
  let x := run_exit (last_run (snd p)) in
  child_stderr x = "Error: LANGUAGE pack 'fra' Not Found" ∧
  fst p = Ok (None, Some (ocr_failed_msg 1 (child_stderr x) +:+ HINT_NO_LANGUAGE)).
Proof.
  intros p x. split; [by vm_compute|].
  assert (str_in "language" (str_lower demo_env (child_stderr x))
          && str_in "not found" (str_lower demo_env (child_stderr x)) = true) as Hl
    by (by vm_compute).
  assert (returncode x = 1) as Hrc by (by vm_compute).
  pose proof (process_single_file_language_hint demo_env demo_no_language_file ["ocrmypdf"]
                None demo_state (snd p) (fst p) (last_run (snd p)) (pair_eta p)) as H.
  fold x in H. rewrite Hl, Hrc in H. apply H.
  - by vm_compute.
  - discriminate.
  - by vm_compute.
  - by vm_compute.
  - by vm_compute.
Defined.

(** X16: the progress callback of a run whose child exited is called
    with 10 and 50, and then with 90 exactly when the exit code is 0;
    nothing else is told to the widgets. *)
Theorem process_single_file_progress_calls (E : Env) (file : UploadedFile)
    (args : list string) (progress_callback : Callback) (s s' : State)
    (r : outcome Result) (run : ChildRun) :
  process_single_file E file args progress_callback s = (r, s') →
  children s' = children s ++ [run] →
  ui s' = ui s ++ callback_events progress_callback
                    (take (if returncode (run_exit run) =? 0 then 3 else 2) PROGRESS_CALLS).
Proof.
  intros Hp Hch.
  destruct (process_single_file_spec E file args progress_callback s)
    as (res & s'' & Hp' & _ & Hcases).
  rewrite Hp in Hp'. injection Hp' as -> <-.
  destruct Hcases as [[Hn _]|(inp & outp & before & _ & _ & _ & _ & _ & _ & Hch' & _)].
  { rewrite Hn in Hch. by apply app_singleton_neq in Hch. }
  cbv zeta in Hch'. pose proof Hch as Hrun. rewrite Hch' in Hrun.
  apply app_inv_head in Hrun. injection Hrun as Hrun.
  destruct (process_single_file_run E file args progress_callback s s' (Ok res) run
              inp outp Hp Hch) as (_ & _ & _ & _ & _ & _ & _ & _ & _ & Hui).
  { by rewrite <- Hrun. }
  done.
Qed.

Lemma process_single_file_progress_calls_witness :
  let p := process_single_file demo_env demo_no_engine_file ["ocrmypdf"]
             (Some single_progress_callback) demo_state in
  returncode (run_exit (last_run (snd p))) = 1 ∧
  ui (snd p) = [SetText StatusText "🔄 正在启动OCR处理..."; SetProgress ProgressBar (PyInt 10);
                SetText StatusText "🔄 OCR处理中，请稍候..."; SetProgress ProgressBar (PyInt 50)].
Proof.
  intros p. split; [by vm_compute|].
  assert ((returncode (run_exit (last_run (snd p))) =? 0) = false) as Hrc by (by vm_compute).
  pose proof (process_single_file_progress_calls demo_env demo_no_engine_file ["ocrmypdf"]
                (Some single_progress_callback) demo_state (snd p) (fst p)
                (last_run (snd p)) (pair_eta p)) as H.
  rewrite Hrc in H. apply H. by vm_compute.
Defined.

(** X17: the runner never raises; its result is output bytes that are not
    empty and no message, or no bytes and a message; it created at most
    two temporary files and ran at most one child process, on [args]
    followed by two paths. *)
Theorem process_single_file_returns (E : Env) (file : UploadedFile) (args : list string)
    (progress_callback : Callback) (s : State) :
  ∃ res s',
    process_single_file E file args progress_callback s = (Ok res, s') ∧
    well_formed_result res ∧
    (∃ temp_files, created s' = created s ++ temp_files ∧ (length temp_files ≤ 2)%nat) ∧
    (∃ runs, children s' = children s ++ runs ∧ (length runs ≤ 1)%nat ∧
             Forall (run_on args) runs).
Proof.
  destruct (process_single_file_stages E file args progress_callback s)
    as (res & s1 & s' & Ha & Hf & Hp).
  destruct (process_attempt_spec E file args progress_callback s)
    as (res' & s1' & Ha' & Hc & _ & Hcases).
  cbv zeta in Ha'. rewrite Ha in Ha'. injection Ha' as <- <-.
  destruct (process_finally_spec s1) as (s'' & Hf' & Hc' & Hch' & _ & _).
  rewrite Hf in Hf'. injection Hf' as <-.
  exists res, s'. split; [done|]. split; [|split].
  - destruct Hcases as [[_ [e ->]]|(? & ? & ? & _ & _ & _ & _ & _ & _ & _ & _ & _ & Hres)].
    + right. by eexists.
    + cbv zeta in Hres.
      destruct Hres as [[_ ->]|[(_ & d & _ & ? & [->|[e ->]])|(_ & _ & ->)]];
        (by right; eexists) || (left; by eexists).
  - exists (bound_files s1). split; [congruence|].
    unfold bound_files. destruct (local_input_file s1), (local_output_file s1); simpl; lia.
  - rewrite Hch'.
    destruct Hcases as [[-> _]|(inp & outp & ? & _ & _ & _ & _ & _ & _ & _ & -> & _)].
    + exists []. split; [by rewrite app_nil_r|]. split; [simpl; lia | constructor].
    + eexists [_]. split; [done|]. split; [simpl; lia|].
      apply Forall_singleton. by exists inp, outp.
Qed.
